(** * Accrual and settlement pipeline of the earning-engine backend

    A shallow embedding of [main.py]: the strategy-rate table and
    [calculate_earnings], the process-wide [user_sessions] dictionary, the
    three endpoints [start_engine], [get_metrics] and [stop_engine],
    [mint_tokens_to_wallet] with its conversation with the Web3 node, the
    set-up of the module globals at import, and the status endpoints [root]
    and [health].

    Conventions of the embedding.
    - Python [float] values (timestamps, amounts, rates) are exact rationals
      [Q]; rounding of binary floating point is outside the model, and
      equations between amounts are stated with [==] ([Qeq]).
    - [user_sessions] is a [gmap string Session]; an endpoint is a
      computation in the monad [M], which threads the dictionary, collects
      what the code prints and what it asks of the Web3 collaborator, and
      either returns or raises.
    - [datetime.now().timestamp()] is an input: every read of the clock the
      source performs is an argument of the embedded function, in source
      order.
    - The Web3 node and the signing account are oracles ([Web3],
      [LocalAccount]): each call either returns a value or raises. *)

From Stdlib Require Import QArith Qround ZArith Lia Lqa Ascii String.
From stdpp Require Import gmap strings pretty.

Local Open Scope string_scope.
Local Open Scope Z_scope.

(** ** Python values *)

(** [int(x)] on a float: truncation towards zero. *)
Definition int_of_float (x : Q) : Z := Z.quot (Qnum x) (Z.pos (Qden x)).

(** [c.lower()] on one character, ASCII letters only. *)
Definition ascii_lower (c : ascii) : ascii :=
  let n := N_of_ascii c in
  if ((65 <=? n) && (n <=? 90))%N then ascii_of_N (n + 32) else c.

(** [s.lower()]. *)
Fixpoint lower (s : string) : string :=
  match s with
  | EmptyString => EmptyString
  | String c r => String (ascii_lower c) (lower r)
  end.

(** Truthiness of a [str]: the empty string is false. *)
Definition str_truthy (s : string) : bool :=
  match s with EmptyString => false | _ => true end.

(** Truthiness of an optional [str]: [None] and [""] are false. *)
Definition opt_str_truthy (o : option string) : bool :=
  match o with Some s => str_truthy s | None => false end.

(** [f"{x:.2f}"]: [x] rounded to two decimals (ties to even). *)
Definition round_half_even (x : Q) : Z :=
  let f := Qfloor x in
  let r := (x - inject_Z f)%Q in
  match (r ?= 1 # 2)%Q with
  | Lt => f
  | Gt => f + 1
  | Eq => if Z.even f then f else f + 1
  end.

Definition two_digits (n : Z) : string :=
  if n <? 10 then "0" +:+ pretty n else pretty n.

Definition format_2f (x : Q) : string :=
  let n := round_half_even (x * 100) in
  let a := Z.abs n in
  (if n <? 0 then "-" else "") +:+ pretty (a / 100) +:+ "." +:+ two_digits (a mod 100).

(** ** The strategy table and the rate model *)

Record Strategy := { apy : Q; weight : Q }.

(** [STRATEGIES], in the order the dictionary literal lists them. *)
Definition STRATEGIES : list (string * Strategy) :=
  [ ("aave_lending", {| apy := 85 # 100;  weight := 15 # 100 |});
    ("compound",     {| apy := 78 # 100;  weight := 12 # 100 |});
    ("uniswap_v3",   {| apy := 245 # 100; weight := 18 # 100 |});
    ("curve_stable", {| apy := 125 # 100; weight := 10 # 100 |});
    ("yearn_vaults", {| apy := 198 # 100; weight := 15 # 100 |});
    ("convex",       {| apy := 312 # 100; weight := 10 # 100 |});
    ("balancer",     {| apy := 167 # 100; weight := 8 # 100 |});
    ("sushiswap",    {| apy := 289 # 100; weight := 5 # 100 |});
    ("mev_arb",      {| apy := 425 # 100; weight := 3 # 100 |});
    ("flashloan",    {| apy := 512 # 100; weight := 2 # 100 |});
    ("governance",   {| apy := 95 # 100;  weight := 1 # 100 |});
    ("staking",      {| apy := 142 # 100; weight := 1 # 100 |}) ].

Definition AI_BOOST : Q := 25 # 10.

(** [sum(...)] over a generator of floats, starting from [0]. *)
Definition sum_floats (l : list Q) : Q := fold_left Qplus l 0%Q.

(** [calculate_earnings(principal, seconds)] returns the pair
    [(earnings, total_apy)]. *)
Definition calculate_earnings (principal seconds : Q) : Q * Q :=
  let total_apy :=
    (sum_floats (map (fun s => apy (snd s) * weight (snd s)) STRATEGIES) * AI_BOOST)%Q in
  let annual_rate := total_apy in
  let per_second_rate := (annual_rate / inject_Z (365 * 24 * 3600))%Q in
  let earnings := (principal * per_second_rate * seconds)%Q in
  (earnings, total_apy).

(** ** Exceptions, events and the monad of the endpoints *)

Inductive exn :=
| HTTPException (status_code : Z) (detail : string)
| KeyError (key : string)
| AttributeError
| Web3Error (what : string).

Inductive result (A : Type) :=
| Ok (a : A)
| Raise (e : exn).
Arguments Ok {A} a.
Arguments Raise {A} e.

(** The dictionary that [build_transaction] is given and returns: the call
    [mint(tx_recipient, tx_amount)] on the contract at [tx_to]. *)
Record Transaction := {
  tx_to : string;
  tx_recipient : string;
  tx_amount : Z;
  tx_from : string;
  tx_nonce : Z;
  tx_gas : Z;
  tx_gasPrice : Z;
  tx_chainId : Z }.

Record Receipt := { status : Z; blockNumber : Z }.

(** What the code asks of the node and of the signing account. *)
Inductive Call :=
| GasPrice
| GetTransactionCount (addr : string)
| ChainId
| BuildTransaction (tx : Transaction)
| SignTransaction (tx : Transaction)
| SendRawTransaction (raw : string)
| WaitForTransactionReceipt (tx_hash : string) (timeout : Z).

(** What the code prints. *)
Inductive Line :=
| EngineStarted (wallet : string)
| Minted (amount : Q) (wallet : string)
| MintPending (wallet : string)
| MintError (wallet : string) (e : exn)
| NotConfigured
| Minting (amount : Q) (wallet : string)
| TransactionSent (tx_hash : string)
| ConfirmedInBlock (block : Z)
| EtherscanLink (tx_hash : string)
| TransactionFailed
| MintingError (e : exn)
| EngineStopped (wallet : string).

Inductive Event :=
| Printed (l : Line)
| Request (c : Call).

(** One entry of [user_sessions]. *)
Record Session := {
  start_time : Q;
  total_earned : Q;
  last_mint_time : Q;
  strategies : list string }.

(** A computation over [user_sessions]: the dictionary after it, the events
    it emitted in order, and its value or the exception it raised. A raise
    keeps the mutations and the events made before it. *)
Definition M (A : Type) : Type :=
  gmap string Session -> gmap string Session * list Event * result A.

Definition ret {A} (a : A) : M A := fun σ => (σ, [], Ok a).

Definition bind {A B} (m : M A) (f : A -> M B) : M B :=
  fun σ =>
    match m σ with
    | (σ1, l1, Ok a) => let '(σ2, l2, r) := f a σ1 in (σ2, (l1 ++ l2)%list, r)
    | (σ1, l1, Raise e) => (σ1, l1, Raise e)
    end.

Definition raise {A} (e : exn) : M A := fun σ => (σ, [], Raise e).

(** [try: m except Exception as e: h e]. *)
Definition try_except {A} (m : M A) (h : exn -> M A) : M A :=
  fun σ =>
    match m σ with
    | (σ1, l1, Raise e) => let '(σ2, l2, r) := h e σ1 in (σ2, (l1 ++ l2)%list, r)
    | done => done
    end.

Definition print (l : Line) : M unit := fun σ => (σ, [Printed l], Ok tt).

(** A call to the collaborator: the request is logged, then the oracle's
    answer is returned or raised. *)
Definition call {A} (c : Call) (answer : result A) : M A :=
  fun σ => (σ, [Request c], answer).

(** A library function that touches neither the node nor the key. *)
Definition pure_call {A} (answer : result A) : M A := fun σ => (σ, [], answer).

Definition get_sessions : M (gmap string Session) := fun σ => (σ, [], Ok σ).

(** [user_sessions[wallet] = s]. *)
Definition set_item (wallet : string) (s : Session) : M unit :=
  fun σ => (<[wallet := s]> σ, [], Ok tt).

(** [user_sessions[wallet]], a [KeyError] when absent. *)
Definition get_item (wallet : string) : M Session :=
  fun σ =>
    match σ !! wallet with
    | Some s => (σ, [], Ok s)
    | None => (σ, [], Raise (KeyError wallet))
    end.

(** A write through the alias [session = user_sessions[wallet]]: the entry
    of the shared dictionary changes in place. *)
Definition update_item (wallet : string) (f : Session -> Session) : M unit :=
  fun σ => (alter f wallet σ, [], Ok tt).

(** [del user_sessions[wallet]]. *)
Definition del_item (wallet : string) : M unit :=
  fun σ => (delete wallet σ, [], Ok tt).

#[global] Instance M_ret : MRet M := @ret.
#[global] Instance M_bind : MBind M := fun A B f m => bind m f.

Definition set_total_earned (v : Q) (s : Session) : Session :=
  {| start_time := start_time s; total_earned := v;
     last_mint_time := last_mint_time s; strategies := strategies s |}.

Definition set_last_mint_time (v : Q) (s : Session) : Session :=
  {| start_time := start_time s; total_earned := total_earned s;
     last_mint_time := v; strategies := strategies s |}.

(** ** The Web3 collaborator *)

(** The node behind [w3] as seen by one call of [mint_tokens_to_wallet].
    [send_raw_transaction] answers the hash in the hexadecimal form the code
    prints and returns ([tx_hash.hex()]); [to_checksum_address] is the
    library's address check, which raises on a malformed address. *)
Record Web3 := {
  to_checksum_address : string -> result string;
  gas_price : result Z;
  get_transaction_count : string -> result Z;
  chain_id : result Z;
  build_transaction : Transaction -> result Transaction;
  send_raw_transaction : string -> result string;
  wait_for_transaction_receipt : string -> Z -> result Receipt }.

(** The signing account; [sign_transaction] answers the raw bytes of the
    signed transaction ([signed_tx.rawTransaction]). *)
Record LocalAccount := {
  address : string;
  sign_transaction : Transaction -> result string }.

(** The module globals [w3], [admin_account] and [TOKEN_ADDRESS]. *)
Record Env := {
  w3 : option Web3;
  admin_account : option LocalAccount;
  TOKEN_ADDRESS : string }.

(** ** The endpoints *)

Record EngineRequest := {
  walletAddress : string;
  miningContract : string;
  yieldAggregator : string;
  req_strategies : list string }.

Record StartResponse := {
  start_success : bool;
  start_message : string;
  start_wallet : string;
  start_ai_boost : Q;
  strategies_count : nat }.

Record Metrics := {
  totalProfit : Q;
  hourlyRate : Q;
  dailyProfit : Q;
  activePositions : nat;
  pendingRewards : Q;
  total_apy_percent : string;
  ai_boost : Q }.

Record StopResponse := { stop_success : bool; stop_message : string }.

(** A value of the JSON body that [stop_engine] receives as a [dict]. *)
Inductive json :=
| JStr (s : string)
| JOther.

Definition Qlt_bool (x y : Q) : bool := negb (Qle_bool y x).

(** [start_engine(req)]; [t1] and [t2] are the two reads of the clock, for
    [start_time] and for [last_mint_time]. *)
Definition start_engine (t1 t2 : Q) (req : EngineRequest) : M StartResponse :=
  let wallet := lower (walletAddress req) in
  set_item wallet
    {| start_time := t1; total_earned := 0; last_mint_time := t2;
       strategies := req_strategies req |};;
  print (EngineStarted wallet);;
  mret {| start_success := true;
          start_message := "10X Earning engine started successfully";
          start_wallet := wallet;
          start_ai_boost := AI_BOOST;
          strategies_count := length STRATEGIES |}.

(** [mint_tokens_to_wallet(wallet_address, amount)]: the transaction hash
    when the receipt has status 1, [None] otherwise. *)
Definition mint_tokens_to_wallet (env : Env) (wallet_address : string) (amount : Q)
  : M (option string) :=
  match w3 env, admin_account env with
  | Some w, Some admin =>
    try_except
      (let token_amount := int_of_float (amount * inject_Z (10 ^ 18)) in
       if token_amount <=? 0 then mret None else
       print (Minting amount wallet_address);;
       token_address ← pure_call (to_checksum_address w (TOKEN_ADDRESS env));
       gas ← call GasPrice (gas_price w);
       let gas_price := int_of_float (inject_Z gas * (12 # 10)) in
       nonce ← call (GetTransactionCount (address admin))
                 (get_transaction_count w (address admin));
       recipient ← pure_call (to_checksum_address w wallet_address);
       chain ← call ChainId (chain_id w);
       let params :=
         {| tx_to := token_address; tx_recipient := recipient;
            tx_amount := token_amount; tx_from := address admin;
            tx_nonce := nonce; tx_gas := 200000; tx_gasPrice := gas_price;
            tx_chainId := chain |} in
       transaction ← call (BuildTransaction params) (build_transaction w params);
       raw ← call (SignTransaction transaction) (sign_transaction admin transaction);
       tx_hash ← call (SendRawTransaction raw) (send_raw_transaction w raw);
       print (TransactionSent tx_hash);;
       receipt ← call (WaitForTransactionReceipt tx_hash 120)
                   (wait_for_transaction_receipt w tx_hash 120);
       if status receipt =? 1 then
         print (ConfirmedInBlock (blockNumber receipt));;
         print (EtherscanLink tx_hash);;
         mret (Some tx_hash)
       else
         print TransactionFailed;;
         mret None)
      (fun e => print (MintingError e);; mret None)
  | _, _ => print NotConfigured;; mret None
  end.

(** [get_metrics(x_wallet_address)]; [t_start] and [t_last] are the reads
    of the clock made when the session is created, [now] the read that
    follows. *)
Definition get_metrics (t_start t_last now : Q) (env : Env)
    (x_wallet_address : option string) : M Metrics :=
  if negb (opt_str_truthy x_wallet_address) then
    raise (HTTPException 400 "Wallet address header required")
  else
  let wallet := lower (default "" x_wallet_address) in
  sessions ← get_sessions;
  (if decide (sessions !! wallet = None) then
     set_item wallet
       {| start_time := t_start; total_earned := 0; last_mint_time := t_last;
          strategies := [] |}
   else mret tt);;
  session ← get_item wallet;
  let seconds_running := (now - start_time session)%Q in
  let seconds_since_mint := (now - last_mint_time session)%Q in
  let principal := 100000%Q in
  let '(new_earnings, total_apy) := calculate_earnings principal seconds_running in
  update_item wallet (fun s => set_total_earned (total_earned s + new_earnings) s);;
  session' ← get_item wallet;
  let accumulated := total_earned session' in
  (if Qle_bool 5 seconds_since_mint && bool_decide (is_Some (w3 env))
      && bool_decide (is_Some (admin_account env)) then
     try_except
       (mint_result ← mint_tokens_to_wallet env wallet accumulated;
        if opt_str_truthy mint_result then
          print (Minted accumulated wallet);;
          update_item wallet (set_last_mint_time now);;
          update_item wallet (set_total_earned 0)
        else
          print (MintPending wallet))
       (fun e => print (MintError wallet e))
   else mret tt);;
  let hourly_rate :=
    if Qlt_bool 0 seconds_running then (new_earnings / seconds_running * 3600)%Q
    else 0%Q in
  let daily_rate := (hourly_rate * 24)%Q in
  mret {| totalProfit := accumulated;
          hourlyRate := hourly_rate;
          dailyProfit := daily_rate;
          activePositions := length STRATEGIES;
          pendingRewards := (accumulated * (1 # 10))%Q;
          total_apy_percent := format_2f (total_apy * 100) +:+ "%";
          ai_boost := AI_BOOST |}.

(** [stop_engine(data)]. *)
Definition stop_engine (data : gmap string json) : M StopResponse :=
  match default (JStr "") (data !! "walletAddress") with
  | JOther => raise AttributeError
  | JStr address =>
    let wallet := lower address in
    sessions ← get_sessions;
    (if decide (is_Some (sessions !! wallet)) then
       del_item wallet;;
       print (EngineStopped wallet)
     else mret tt);;
    mret {| stop_success := true; stop_message := "Engine stopped" |}
  end.

(** ** Observations on one call *)

(** The events and the value of a call of [mint_tokens_to_wallet]; they do
    not depend on the dictionary, see [mint_tokens_to_wallet_run]. *)
Definition mint_events (env : Env) (wallet : string) (amount : Q) : list Event :=
  (mint_tokens_to_wallet env wallet amount ∅).1.2.

Definition mint_value (env : Env) (wallet : string) (amount : Q) : option string :=
  match (mint_tokens_to_wallet env wallet amount ∅).2 with
  | Ok v => v
  | Raise _ => None
  end.

(** The session a metrics query for [wallet] works on: the stored one, or
    the one it creates. *)
Definition fresh_session (t_start t_last : Q) : Session :=
  {| start_time := t_start; total_earned := 0; last_mint_time := t_last;
     strategies := [] |}.

Definition session_of (t_start t_last : Q) (σ : gmap string Session)
    (wallet : string) : Session :=
  default (fresh_session t_start t_last) (σ !! wallet).

(** The increment a query at [now] adds, and the total after adding it. *)
Definition accrual (now : Q) (s : Session) : Q :=
  (calculate_earnings 100000 (now - start_time s)).1.

Definition accumulated (now : Q) (s : Session) : Q :=
  (total_earned s + accrual now s)%Q.

(** The guard of the settlement attempt. *)
Definition due (now : Q) (env : Env) (s : Session) : bool :=
  Qle_bool 5 (now - last_mint_time s) && bool_decide (is_Some (w3 env))
  && bool_decide (is_Some (admin_account env)).

(** The response of a query at [now] on the session [s]. *)
Definition snapshot (now : Q) (s : Session) : Metrics :=
  let seconds_running := (now - start_time s)%Q in
  let hourly_rate :=
    if Qlt_bool 0 seconds_running then (accrual now s / seconds_running * 3600)%Q
    else 0%Q in
  {| totalProfit := accumulated now s;
     hourlyRate := hourly_rate;
     dailyProfit := (hourly_rate * 24)%Q;
     activePositions := length STRATEGIES;
     pendingRewards := (accumulated now s * (1 # 10))%Q;
     total_apy_percent :=
       format_2f ((calculate_earnings 100000 seconds_running).2 * 100) +:+ "%";
     ai_boost := AI_BOOST |}.

(** The requests to the collaborator among the events of a call. *)
Definition requests (log : list Event) : list Call :=
  omap (fun ev => match ev with Request c => Some c | Printed _ => None end) log.

(** A settlement attempt of the query confirmed: it printed [Minted]. *)
Definition attempt_confirmed (log : list Event) : bool :=
  existsb (fun ev => match ev with Printed (Minted _ _) => true | _ => false end) log.

(** A settlement attempt of the query was made and did not confirm: it
    printed [MintPending] or [MintError]. *)
Definition attempt_failed (log : list Event) : bool :=
  existsb (fun ev => match ev with
                     | Printed (MintPending _) | Printed (MintError _ _) => true
                     | _ => false
                     end) log.

(** The rate model as the design states it: the weighted sum of the table,
    [apy_i * weight_i] summed over its rows, times the boost constant 2.5,
    and the increment of a principal [P] over [t] seconds with the year
    taken as 365 days of 86400 seconds. *)
Fixpoint weighted_sum (table : list (string * Strategy)) : Q :=
  match table with
  | [] => 0
  | row :: rest => (apy row.2 * weight row.2 + weighted_sum rest)%Q
  end.

Definition effectiveRate : Q := (weighted_sum STRATEGIES * (25 # 10))%Q.

Definition accrue (P t : Q) : Q :=
  (P * effectiveRate / (365 * 86400) * t)%Q.

(** A run of metrics queries with the same header; each query comes with
    its read of the clock and the environment it meets. The log is that of
    all the queries, in order. *)
Fixpoint poll (h : option string) (qs : list (Q * Env)) (σ : gmap string Session)
  : gmap string Session * list Event :=
  match qs with
  | [] => (σ, [])
  | (now, env) :: rest =>
    let out := get_metrics now now now env h σ in
    let '(σ', log) := poll h rest out.1.1 in
    (σ', (out.1.2 ++ log)%list)
  end.

(** The sum of the times elapsed since [t0] at each query. *)
Fixpoint total_elapsed (t0 : Q) (qs : list (Q * Env)) : Q :=
  match qs with
  | [] => 0
  | q :: rest => (q.1 - t0 + total_elapsed t0 rest)%Q
  end.

(** ** Runs of the service *)

(** One request to the service, with the reads of the clock it may make and,
    for a metrics query, the environment it meets. *)
Inductive Op :=
| OpStart (t1 t2 : Q) (req : EngineRequest)
| OpMetrics (t_start t_last now : Q) (env : Env) (h : option string)
| OpStop (data : gmap string json).

Definition run_op (op : Op) (σ : gmap string Session)
  : gmap string Session * list Event :=
  match op with
  | OpStart t1 t2 req => (start_engine t1 t2 req σ).1
  | OpMetrics t_start t_last now env h => (get_metrics t_start t_last now env h σ).1
  | OpStop data => (stop_engine data σ).1
  end.

(** The reads of the clock the request makes on [σ], in order: a metrics
    query reads it twice more when it creates the session. *)
Definition clock_reads (op : Op) (σ : gmap string Session) : list Q :=
  match op with
  | OpStart t1 t2 _ => [t1; t2]
  | OpMetrics t_start t_last now _ h =>
    if opt_str_truthy h then
      match σ !! lower (default "" h) with
      | None => [t_start; t_last; now]
      | Some _ => [now]
      end
    else []
  | OpStop _ => []
  end.

(** The clock does not go back: [t] and then [reads] never decrease. *)
Fixpoint nondecreasing (t : Q) (reads : list Q) : bool :=
  match reads with
  | [] => true
  | r :: rest => Qle_bool t r && nondecreasing r rest
  end.

(** The dictionaries the service can hold when the clock last read [t],
    from the empty one at start-up, under a clock that does not go back. *)
Inductive reachable : Q -> gmap string Session -> Prop :=
| reachable_init t : reachable t ∅
| reachable_step t σ op :
    reachable t σ ->
    nondecreasing t (clock_reads op σ) = true ->
    reachable (List.last (clock_reads op σ) t) (run_op op σ).1.

(** The pending amount of an account; zero when it is not tracked. *)
Definition pending (σ : gmap string Session) (wallet : string) : Q :=
  match σ !! wallet with
  | Some s => total_earned s
  | None => 0
  end.

(** The request is a start for [wallet]. *)
Definition starts (wallet : string) (op : Op) : Prop :=
  match op with
  | OpStart _ _ req => lower (walletAddress req) = wallet
  | _ => False
  end.

(** The request is a metrics query for [wallet] whose settlement attempt
    confirms on [σ]. *)
Definition settles (wallet : string) (op : Op) (σ : gmap string Session) : Prop :=
  match op with
  | OpMetrics _ _ _ _ h =>
    lower (default "" h) = wallet /\ attempt_confirmed (run_op op σ).2 = true
  | _ => False
  end.

(** What a run keeps true of every session when the clock last read [t]. *)
Definition sessions_ok (t : Q) (σ : gmap string Session) : Prop :=
  forall wallet s, σ !! wallet = Some s ->
    (start_time s <= t)%Q /\ (0 <= total_earned s)%Q.

(** ** Start-up and the status endpoints *)

(** [os.getenv(name, default)] on the process environment. *)
Definition getenv (environ : gmap string string) (name fallback : string) : string :=
  default fallback (environ !! name).

(** The module-level set-up of [w3], [admin_account] and [TOKEN_ADDRESS].
    [node] is the client built on the Alchemy endpoint, [connected] the
    answer of [w3.is_connected()] (asked only when a private key is given)
    and [from_key] the library's key import, which raises on a malformed
    key and then stops the import of the module. *)
Definition startup (environ : gmap string string) (node : Web3) (connected : bool)
    (from_key : string -> result LocalAccount) : result Env :=
  let ALCHEMY_KEY := getenv environ "ALCHEMY_API_KEY" "" in
  let PRIVATE_KEY := getenv environ "ADMIN_PRIVATE_KEY" "" in
  let TOKEN :=
    getenv environ "REWARD_TOKEN_ADDRESS"
      "0x8502496d6739dd6e18ced318c4b5fc12a5fb2c2c" in
  if str_truthy ALCHEMY_KEY then
    if str_truthy PRIVATE_KEY && connected then
      match from_key PRIVATE_KEY with
      | Ok account =>
        Ok {| w3 := Some node; admin_account := Some account;
              TOKEN_ADDRESS := TOKEN |}
      | Raise e => Raise e
      end
    else Ok {| w3 := Some node; admin_account := None; TOKEN_ADDRESS := TOKEN |}
  else Ok {| w3 := None; admin_account := None; TOKEN_ADDRESS := TOKEN |}.

Record RootResponse := {
  root_status : string;
  root_service : string;
  root_version : string;
  root_strategies : nat;
  root_ai_boost : Q;
  web3_ready : bool;
  admin_wallet : option string }.

(** [root()]; [connected] is the answer of [w3.is_connected()], asked only
    when [w3] is set. *)
Definition root (connected : bool) (env : Env) : RootResponse :=
  {| root_status := "online";
     root_service := "10X Hyper Earning Backend";
     root_version := "10.0.0";
     root_strategies := length STRATEGIES;
     root_ai_boost := AI_BOOST;
     web3_ready :=
       if bool_decide (is_Some (w3 env))
       then bool_decide (is_Some (w3 env)) && connected
       else false;
     admin_wallet :=
       match admin_account env with
       | Some account => Some (address account)
       | None => None
       end |}.

Record HealthResponse := {
  health_status : string;
  health_timestamp : string;
  health_web3 : bool }.

(** [health()]; [timestamp] is the clock as [datetime.now().isoformat()]
    renders it. *)
Definition health (timestamp : string) (connected : bool) (env : Env)
  : HealthResponse :=
  {| health_status := "healthy";
     health_timestamp := timestamp;
     health_web3 := if bool_decide (is_Some (w3 env)) then connected else false |}.

(** ** Notions used in the further properties *)

(** The place of a request in the conversation of one mint. *)
Definition call_rank (c : Call) : nat :=
  match c with
  | GasPrice => 0
  | GetTransactionCount _ => 1
  | ChainId => 2
  | BuildTransaction _ => 3
  | SignTransaction _ => 4
  | SendRawTransaction _ => 5
  | WaitForTransactionReceipt _ _ => 6
  end.

Definition is_submission (c : Call) : bool :=
  match c with SendRawTransaction _ => true | _ => false end.

(** A session with its strategies erased. *)
Definition forget_strategies (s : Session) : Session :=
  {| start_time := start_time s; total_earned := total_earned s;
     last_mint_time := last_mint_time s; strategies := [] |}.

(** What a run keeps true of every entry beyond [sessions_ok]: the key is
    in lower case, and the entry was last minted between its start and the
    last read of the clock. *)
Definition entries_ok (t : Q) (σ : gmap string Session) : Prop :=
  forall wallet s, σ !! wallet = Some s ->
    lower wallet = wallet
    /\ (start_time s <= last_mint_time s)%Q /\ (last_mint_time s <= t)%Q.

(** ** Scenarios *)

(** A node on which every call answers; the receipt has the given status. *)
Definition node_with_status (st : Z) : Web3 :=
  {| to_checksum_address := fun a => Ok a;
     gas_price := Ok 30000000000;
     get_transaction_count := fun _ => Ok 7;
     chain_id := Ok 1;
     build_transaction := fun tx => Ok tx;
     send_raw_transaction := fun _ => Ok "0xfeed";
     wait_for_transaction_receipt :=
       fun _ _ => Ok {| status := st; blockNumber := 100 |} |}.

Definition confirming_node : Web3 := node_with_status 1.

Definition reverting_node : Web3 := node_with_status 0.

(** The receipt does not arrive within the timeout. *)
Definition timing_out_node : Web3 :=
  {| to_checksum_address := fun a => Ok a;
     gas_price := Ok 30000000000;
     get_transaction_count := fun _ => Ok 7;
     chain_id := Ok 1;
     build_transaction := fun tx => Ok tx;
     send_raw_transaction := fun _ => Ok "0xfeed";
     wait_for_transaction_receipt := fun _ _ => Raise (Web3Error "TimeExhausted") |}.

(** The node rejects the signed transaction. *)
Definition rejecting_node : Web3 :=
  {| to_checksum_address := fun a => Ok a;
     gas_price := Ok 30000000000;
     get_transaction_count := fun _ => Ok 7;
     chain_id := Ok 1;
     build_transaction := fun tx => Ok tx;
     send_raw_transaction := fun _ => Raise (Web3Error "rejected");
     wait_for_transaction_receipt :=
       fun _ _ => Ok {| status := 1; blockNumber := 100 |} |}.

Definition admin_key : LocalAccount :=
  {| address := "0xAd"; sign_transaction := fun _ => Ok "signed" |}.

Definition env_with (node : Web3) : Env :=
  {| w3 := Some node; admin_account := Some admin_key;
     TOKEN_ADDRESS := "0x8502496d6739dd6e18ced318c4b5fc12a5fb2c2c" |}.

(** Neither the node nor the key is configured. *)
Definition env_offline : Env :=
  {| w3 := None; admin_account := None;
     TOKEN_ADDRESS := "0x8502496d6739dd6e18ced318c4b5fc12a5fb2c2c" |}.

(** A dictionary with one session for ["0xabc"], started and last minted
    at time 0, holding [earned]. *)
Definition one_session (earned : Q) : gmap string Session :=
  {[ "0xabc" := {| start_time := 0; total_earned := earned;
                   last_mint_time := 0; strategies := [] |} ]}.

(** The request that starts ["0xabc"], and the dictionary after that start
    at time 0 and one query an hour later with neither node nor key. *)
Definition abc_request : EngineRequest :=
  {| walletAddress := "0xABC"; miningContract := "m"; yieldAggregator := "y";
     req_strategies := ["convex"; "staking"] |}.

Definition after_one_hour : gmap string Session :=
  (run_op (OpMetrics 0 0 3600 env_offline (Some "0xabc"))
     (run_op (OpStart 0 0 abc_request) ∅).1).1.

Ltac unfold_m :=
  unfold mbind, mret, M_bind, M_ret, bind, ret, raise, try_except, print,
    call, pure_call, get_sessions, set_item, get_item, update_item, del_item.

(** Case analysis on every answer the collaborator gives during a mint. *)
Ltac mint_cases tac :=
  unfold mint_events, mint_value, mint_tokens_to_wallet;
  match goal with
  | |- context [w3 ?e] =>
      destruct (w3 e) as [?w|] eqn:?, (admin_account e) as [?admin|] eqn:?
  end; try tac;
  unfold_m;
  match goal with
  | |- context [int_of_float ?x <=? 0] => destruct (int_of_float x <=? 0) eqn:?
  end; try tac;
  repeat match goal with
  | |- context [match ?r with Ok _ => _ | Raise _ => _ end] =>
      lazymatch r with
      | context [match _ with _ => _ end] => fail
      | _ => destruct r eqn:?; cbn [fst snd app]; try tac
      end
  | |- context [if ?b then _ else _] => destruct b; cbn [fst snd app]; try tac
  end.

Ltac elem_cases H :=
  repeat (apply elem_of_cons in H as [H|H];
          [first [discriminate H | injection H as ?; subst] | ]);
  try (by apply elem_of_nil in H).

Lemma mint_tokens_to_wallet_run env wallet amount σ :
  mint_tokens_to_wallet env wallet amount σ
  = (σ, mint_events env wallet amount, Ok (mint_value env wallet amount)).
Proof. mint_cases ltac:(reflexivity). Qed.

Lemma attempt_confirmed_app l1 l2 :
  attempt_confirmed (l1 ++ l2) = attempt_confirmed l1 || attempt_confirmed l2.
Proof. apply existsb_app. Qed.

Lemma attempt_failed_app l1 l2 :
  attempt_failed (l1 ++ l2) = attempt_failed l1 || attempt_failed l2.
Proof. apply existsb_app. Qed.

(** [mint_tokens_to_wallet] prints neither [Minted] nor [MintPending] nor
    [MintError]: those lines belong to [get_metrics]. *)
Lemma mint_events_no_verdict env wallet amount :
  attempt_confirmed (mint_events env wallet amount) = false
  /\ attempt_failed (mint_events env wallet amount) = false.
Proof. mint_cases ltac:(split; reflexivity). Qed.

(** One metrics query, step by step: the session is created when absent,
    the accrual since [start_time] is added, and when the guard holds the
    mint is tried; only a truthy result resets the total and moves
    [last_mint_time]. *)
Lemma get_metrics_run t_start t_last now env h σ :
  opt_str_truthy h = true ->
  let wallet := lower (default "" h) in
  let s := session_of t_start t_last σ wallet in
  let acc := accumulated now s in
  let s1 := set_total_earned acc s in
  let ok := opt_str_truthy (mint_value env wallet acc) in
  get_metrics t_start t_last now env h σ
  = (<[wallet := if due now env s && ok
                 then set_total_earned 0 (set_last_mint_time now s1) else s1]> σ,
     if due now env s
     then (mint_events env wallet acc
           ++ [Printed (if ok then Minted acc wallet else MintPending wallet)])%list
     else [],
     Ok (snapshot now s)).
Proof.
  intros Hh wallet s acc s1 ok.
  unfold get_metrics. rewrite Hh. cbn [negb].
  fold wallet. unfold_m.
  assert (Hsnap : forall ne apy0,
    calculate_earnings 100000 (now - start_time s) = (ne, apy0) ->
    set_total_earned (total_earned s + ne) s = s1 /\
    {| totalProfit := total_earned s1;
       hourlyRate := if Qlt_bool 0 (now - start_time s)
                     then (ne / (now - start_time s) * 3600)%Q else 0%Q;
       dailyProfit := ((if Qlt_bool 0 (now - start_time s)
                        then (ne / (now - start_time s) * 3600)%Q else 0%Q) * 24)%Q;
       activePositions := length STRATEGIES;
       pendingRewards := (total_earned s1 * (1 # 10))%Q;
       total_apy_percent := format_2f (apy0 * 100) +:+ "%";
       ai_boost := AI_BOOST |} = snapshot now s).
  { intros ne apy0 Ec. unfold s1, snapshot, acc, accumulated, accrual.
    rewrite Ec. done. }
  assert (Hs : s = session_of t_start t_last σ wallet) by reflexivity.
  assert (Hacc : total_earned s1 = acc) by reflexivity.
  clearbody s. unfold session_of in Hs.
  assert (Hrest : forall σ0, σ0 !! wallet = Some s ->
            (forall x, <[wallet := x]> σ0 = <[wallet := x]> σ) ->
            forall ne apy0, calculate_earnings 100000 (now - start_time s) = (ne, apy0) ->
            alter (fun s2 => set_total_earned (total_earned s2 + ne) s2) wallet σ0
            = <[wallet := s1]> σ).
  { intros σ0 Hl Hi ne apy0 Ec. rewrite (alter_alt_Some _ _ _ _ Hl), Hi.
    by destruct (Hsnap _ _ Ec) as [-> _]. }
  assert (Hσ : exists σ0, σ0 !! wallet = Some s
            /\ (forall x, <[wallet := x]> σ0 = <[wallet := x]> σ)
            /\ (if decide (σ !! wallet = None)
                then (<[wallet := {| start_time := t_start; total_earned := 0;
                                     last_mint_time := t_last; strategies := [] |}]> σ,
                      @nil Event, Ok ())
                else (σ, [], Ok ())) = (σ0, [], Ok ())).
  { destruct (σ !! wallet) as [s0|] eqn:E; cbn in Hs; subst s.
    - exists σ. rewrite decide_False by done. split_and!; try done.
    - exists (<[wallet := fresh_session t_start t_last]> σ).
      rewrite decide_True by done. split_and!; try done.
      + apply lookup_insert_eq.
      + intros. apply insert_insert_eq. }
  destruct Hσ as (σ0 & Hl & Hi & Hd).
  destruct (decide (σ !! wallet = None)); cbv beta iota;
    injection Hd as <-; rewrite Hl; cbv beta iota;
    destruct (calculate_earnings 100000 (now - start_time s)) as [ne apy0];
    cbv beta iota; rewrite (Hrest _ Hl Hi _ _ eq_refl); rewrite lookup_insert_eq;
    cbv beta iota; destruct (Hsnap _ _ eq_refl) as [_ ->]; rewrite Hacc;
    fold (due now env s);
    (destruct (due now env s); cbn [andb]; cbv beta iota;
     [ rewrite mint_tokens_to_wallet_run; fold ok; destruct ok; cbv beta iota;
       rewrite ?alter_insert_eq, ?insert_insert_eq, ?app_nil_r; reflexivity
     | reflexivity ]).
Qed.

(** ** The rate model *)

Lemma total_apy_value P t : ((calculate_earnings P t).2 == 48195 # 10000)%Q.
Proof. vm_compute. reflexivity. Qed.

Lemma effectiveRate_value : (effectiveRate == 48195 # 10000)%Q.
Proof. vm_compute. reflexivity. Qed.

Lemma calculate_earnings_value P t :
  ((calculate_earnings P t).1 == P * ((48195 # 10000) / (31536000 # 1)) * t)%Q.
Proof.
  unfold calculate_earnings. cbn [fst].
  change (inject_Z (365 * 24 * 3600)) with (31536000 # 1)%Q.
  pose proof (total_apy_value 0 0) as H. unfold calculate_earnings in H.
  cbn [snd] in H. rewrite H. reflexivity.
Qed.

Lemma calculate_earnings_fst P t : ((calculate_earnings P t).1 == accrue P t)%Q.
Proof.
  rewrite calculate_earnings_value. unfold accrue.
  rewrite effectiveRate_value. field.
Qed.

Lemma accrual_accrue now s :
  (accrual now s == accrue 100000 (now - start_time s))%Q.
Proof. apply calculate_earnings_fst. Qed.

(** C2. For every principal [P] and every elapsed duration [t] (so also for
    every [t >= 0]), the increment [calculate_earnings] returns equals
    [P * effectiveRate / (365 * 86400) * t], where [effectiveRate] is the
    sum of [apy_i * weight_i] over the strategy table times the boost 2.5;
    the second component it returns is that rate, and the increment of a
    metrics query is this amount for the principal 100000 and the time
    since [start_time]. Amounts are exact rationals, so the equality is
    exact. *)
Theorem calculate_earnings_accrue (P t : Q) :
  ((calculate_earnings P t).1 == accrue P t)%Q
  /\ ((calculate_earnings P t).2 == effectiveRate)%Q
  /\ (effectiveRate == weighted_sum STRATEGIES * AI_BOOST)%Q
  /\ (AI_BOOST == 25 # 10)%Q
  /\ forall now s, (accrual now s == accrue 100000 (now - start_time s))%Q.
Proof.
  split_and!.
  - apply calculate_earnings_fst.
  - rewrite total_apy_value, effectiveRate_value. reflexivity.
  - reflexivity.
  - reflexivity.
  - apply accrual_accrue.
Qed.

(** ** Arithmetic of amounts *)

Lemma per_second_rate_pos : (0 < (48195 # 10000) / (31536000 # 1))%Q.
Proof. reflexivity. Qed.

Lemma accrual_value now s :
  (accrual now s
   == 100000 * ((48195 # 10000) / (31536000 # 1)) * (now - start_time s))%Q.
Proof. apply calculate_earnings_value. Qed.

Lemma accrual_nonneg now s : (start_time s <= now)%Q -> (0 <= accrual now s)%Q.
Proof.
  intros H. rewrite accrual_value.
  apply Qmult_le_0_compat; [discriminate|].
  unfold Qminus. rewrite <- Qle_minus_iff. exact H.
Qed.

Lemma accrual_pos now s : (start_time s < now)%Q -> (0 < accrual now s)%Q.
Proof.
  intros H. rewrite accrual_value.
  apply Qmult_lt_0_compat; [reflexivity|].
  unfold Qminus. rewrite <- Qlt_minus_iff. exact H.
Qed.


Lemma int_of_float_pos x : 0 < int_of_float x -> (0 < x)%Q.
Proof.
  unfold int_of_float, Qlt. destruct x as [n d]. cbn [Qnum Qden].
  intros H. rewrite Z.mul_1_r. change (0 * Z.pos d) with 0.
  destruct (Z.lt_trichotomy n 0) as [Hn|[->|Hn]]; [|done|done].
  pose proof (Z.quot_le_upper_bound n (Z.pos d) 0) as Hq.
  assert (n ÷ Z.pos d <= 0); [|lia].
  apply Z.quot_le_upper_bound; lia.
Qed.

Lemma int_of_float_ge_1 x : (1 <= x)%Q -> 0 < int_of_float x.
Proof.
  unfold int_of_float, Qle. destruct x as [n d]. cbn [Qnum Qden].
  intros H. rewrite Z.mul_1_r, Z.mul_1_l in H.
  apply Z.quot_str_pos. lia.
Qed.

(** ** What one call of [mint_tokens_to_wallet] can do *)

Lemma mint_value_Some env wallet amount tx_hash :
  mint_value env wallet amount = Some tx_hash ->
  0 < int_of_float (amount * inject_Z (10 ^ 18)).
Proof.
  unfold mint_value, mint_tokens_to_wallet.
  destruct (w3 env) as [w|], (admin_account env) as [admin|]; try discriminate.
  unfold_m.
  destruct (int_of_float _ <=? 0) eqn:E; [discriminate|].
  intros _. by apply Z.leb_gt.
Qed.



(** ** The endpoints, run *)

Lemma get_metrics_no_header t_start t_last now env h σ :
  opt_str_truthy h = false ->
  get_metrics t_start t_last now env h σ
  = (σ, [], Raise (HTTPException 400 "Wallet address header required")).
Proof. intros H. unfold get_metrics. rewrite H. reflexivity. Qed.

Lemma start_engine_run t1 t2 req σ :
  start_engine t1 t2 req σ
  = (<[lower (walletAddress req) :=
         {| start_time := t1; total_earned := 0; last_mint_time := t2;
            strategies := req_strategies req |}]> σ,
     [Printed (EngineStarted (lower (walletAddress req)))],
     Ok {| start_success := true;
           start_message := "10X Earning engine started successfully";
           start_wallet := lower (walletAddress req);
           start_ai_boost := AI_BOOST;
           strategies_count := 12 |}).
Proof. reflexivity. Qed.

Lemma stop_engine_run data address σ :
  default (JStr "") (data !! "walletAddress") = JStr address ->
  stop_engine data σ
  = (delete (lower address) σ,
     if decide (is_Some (σ !! lower address))
     then [Printed (EngineStopped (lower address))] else [],
     Ok {| stop_success := true; stop_message := "Engine stopped" |}).
Proof.
  intros H. unfold stop_engine. rewrite H. unfold_m.
  destruct (decide (is_Some (σ !! lower address))) as [Hs|Hn]; [reflexivity|].
  rewrite delete_id; [reflexivity|].
  by apply eq_None_not_Some.
Qed.

(** The verdict lines in the log of a query tell how its attempt went. *)
Lemma get_metrics_verdict t_start t_last now env h σ :
  opt_str_truthy h = true ->
  let wallet := lower (default "" h) in
  let s := session_of t_start t_last σ wallet in
  let ok := opt_str_truthy (mint_value env wallet (accumulated now s)) in
  let log := (get_metrics t_start t_last now env h σ).1.2 in
  attempt_confirmed log = due now env s && ok
  /\ attempt_failed log = due now env s && negb ok.
Proof.
  intros Hh wallet s ok log. unfold log.
  rewrite (get_metrics_run _ _ _ _ _ _ Hh). cbn [fst snd].
  fold wallet s ok.
  destruct (mint_events_no_verdict env wallet (accumulated now s)) as [Hc Hf].
  destruct (due now env s); [|done].
  rewrite attempt_confirmed_app, attempt_failed_app, Hc, Hf.
  by destruct ok.
Qed.

Lemma no_header_no_verdict t_start t_last now env h σ :
  opt_str_truthy h = false ->
  (get_metrics t_start t_last now env h σ).1.2 = [].
Proof. intros H. by rewrite get_metrics_no_header. Qed.

Lemma due_time now env s : due now env s = true -> (5 <= now - last_mint_time s)%Q.
Proof.
  unfold due. intros H. apply andb_prop in H as [H _].
  apply andb_prop in H as [H _]. by apply Qle_bool_iff.
Qed.

Lemma due_available now env s :
  due now env s = true -> is_Some (w3 env) /\ is_Some (admin_account env).
Proof.
  unfold due. intros H. apply andb_prop in H as [H H2].
  apply andb_prop in H as [_ H1].
  split; eapply bool_decide_eq_true_1; eassumption.
Qed.

(** ** Settlement outcomes *)




(** C10. When the settlement attempt of a metrics query confirms, the
    response reports the total as accumulated before the reset: it is
    strictly positive, [pendingRewards] is a tenth of it, and the stored
    [total_earned] is zero at the same time, with [last_mint_time] moved to
    [now]. *)
Theorem confirmed_attempt_reports_settled_amount t_start t_last now env h σ :
  attempt_confirmed (get_metrics t_start t_last now env h σ).1.2 = true ->
  let wallet := lower (default "" h) in
  let s := session_of t_start t_last σ wallet in
  exists resp s',
    (get_metrics t_start t_last now env h σ).2 = Ok resp
    /\ totalProfit resp = accumulated now s
    /\ (0 < totalProfit resp)%Q
    /\ (pendingRewards resp == totalProfit resp * (1 # 10))%Q
    /\ (get_metrics t_start t_last now env h σ).1.1 !! wallet = Some s'
    /\ total_earned s' = 0%Q
    /\ last_mint_time s' = now.
Proof.
  intros Hc wallet s.
  destruct (opt_str_truthy h) eqn:Hh;
    [|by rewrite (no_header_no_verdict _ _ _ _ _ _ Hh) in Hc].
  destruct (get_metrics_verdict t_start t_last now env h σ Hh) as [Hv _].
  cbv zeta in Hv. fold wallet s in Hv. rewrite Hc in Hv. symmetry in Hv.
  apply andb_prop in Hv as [Hd Hok].
  rewrite (get_metrics_run _ _ _ _ _ _ Hh). cbn [fst snd]. fold wallet s.
  rewrite Hd, Hok. cbn [andb].
  eexists _, _. rewrite lookup_insert_eq.
  split_and!; try reflexivity.
  cbn [snapshot totalProfit].
  destruct (mint_value env wallet (accumulated now s)) as [tx_hash|] eqn:Hm;
    [|discriminate].
  apply mint_value_Some, int_of_float_pos in Hm.
  destruct (Qlt_le_dec 0 (accumulated now s)) as [|Hle]; [done|].
  exfalso. apply (Qlt_irrefl 0). eapply Qlt_le_trans; [exact Hm|].
  assert (H0 : (0 * inject_Z (10 ^ 18) == 0)%Q) by ring.
  rewrite <- H0. apply Qmult_le_compat_r; [exact Hle|discriminate].
Qed.

(** A query at 10 on a session holding 3, on a node that confirms. *)
Lemma confirmed_attempt_reports_settled_amount_witness :
  exists resp s',
    (get_metrics 10 10 10 (env_with confirming_node) (Some "0xABC")
       (one_session 3)).2 = Ok resp
    /\ totalProfit resp = accumulated 10 (session_of 10 10 (one_session 3) "0xabc")
    /\ (0 < totalProfit resp)%Q
    /\ (pendingRewards resp == totalProfit resp * (1 # 10))%Q
    /\ (get_metrics 10 10 10 (env_with confirming_node) (Some "0xABC")
          (one_session 3)).1.1 !! "0xabc" = Some s'
    /\ total_earned s' = 0%Q
    /\ last_mint_time s' = 10%Q.
Proof.
  apply (confirmed_attempt_reports_settled_amount 10 10 10
           (env_with confirming_node) (Some "0xABC") (one_session 3)).
  vm_compute. reflexivity.
Defined.

(** ** Errors of the metrics endpoint *)

(** C9 (as amended). The metrics endpoint raises if and only if the wallet
    header is missing or empty, and what it raises is the 400 error; for
    every other header, whatever the node and the key do, it returns the
    snapshot. *)
Theorem get_metrics_raises_iff t_start t_last now env h σ :
  ((exists e, (get_metrics t_start t_last now env h σ).2 = Raise e)
   <-> h = None \/ h = Some "")
  /\ (forall e, (get_metrics t_start t_last now env h σ).2 = Raise e ->
        e = HTTPException 400 "Wallet address header required")
  /\ (h <> None -> h <> Some "" ->
      (get_metrics t_start t_last now env h σ).2
      = Ok (snapshot now (session_of t_start t_last σ (lower (default "" h))))).
Proof.
  destruct (opt_str_truthy h) eqn:Hh.
  - rewrite (get_metrics_run _ _ _ _ _ _ Hh). cbn [snd].
    split_and!.
    + split; [intros [e He]; discriminate|].
      intros [->| ->]; discriminate.
    + intros e He. discriminate.
    + reflexivity.
  - rewrite (get_metrics_no_header _ _ _ _ _ _ Hh). cbn [snd].
    assert (Hm : h = None \/ h = Some "").
    { destruct h as [[|c r]|]; [by right|discriminate|by left]. }
    split_and!.
    + split; [done|]. intros _. by eexists.
    + intros e He. by injection He as <-.
    + intros H1 H2. by destruct Hm.
Qed.

(** C9, as stated, fails: a header that is present with the empty value is
    answered with the 400 error as well. *)
Lemma get_metrics_raises_counterexample :
  (get_metrics 0 0 0 env_offline (Some "") ∅).2
  = Raise (HTTPException 400 "Wallet address header required")
  /\ Some "" <> @None string.
Proof. split; [reflexivity|discriminate]. Qed.

(** ** Start and stop *)

(** C7. Starting an account that is already in the dictionary overwrites
    its entry: [total_earned] is zero, [start_time] and [last_mint_time] are
    the clock as read by this start, whatever the earlier entry held; the
    other entries are untouched, and the next query accrues from the new
    [start_time] alone. *)
Theorem start_engine_overwrites t1 t2 req σ s :
  σ !! lower (walletAddress req) = Some s ->
  let wallet := lower (walletAddress req) in
  let σ' := (start_engine t1 t2 req σ).1.1 in
  σ' !! wallet
  = Some {| start_time := t1; total_earned := 0; last_mint_time := t2;
            strategies := req_strategies req |}
  /\ σ' = (start_engine t1 t2 req (delete wallet σ)).1.1
  /\ (forall other, other <> wallet -> σ' !! other = σ !! other)
  /\ (forall now, (accumulated now (session_of now now σ' wallet)
                   == accrue 100000 (now - t1))%Q)
  /\ (forall now, t1 = now -> t2 = now ->
        exists s', σ' !! wallet = Some s' /\ total_earned s' = 0%Q
                   /\ start_time s' = now /\ last_mint_time s' = now).
Proof.
  intros Hs wallet σ'. unfold σ'. rewrite !start_engine_run. cbn [fst].
  fold wallet. split_and!.
  - apply lookup_insert_eq.
  - by rewrite insert_delete_eq.
  - intros other Hne. by rewrite lookup_insert_ne.
  - intros now. unfold session_of. rewrite lookup_insert_eq. cbn [default].
    unfold accumulated. cbn [total_earned from_option id].
    rewrite accrual_accrue. cbn [start_time]. ring.
  - intros now -> ->. eexists. rewrite lookup_insert_eq. done.
Qed.

(** An account that has accrued for an hour is started again at 4000. *)
Lemma start_engine_overwrites_witness :
  let req := {| walletAddress := "0xABC"; miningContract := "m";
                yieldAggregator := "y"; req_strategies := ["convex"] |} in
  let σ := (get_metrics 0 0 3600 env_offline (Some "0xabc") (one_session 0)).1.1 in
  exists s, σ !! "0xabc" = Some s /\ (0 < total_earned s)%Q
    /\ (start_engine 4000 4000 req σ).1.1 !! "0xabc"
       = Some {| start_time := 4000; total_earned := 0; last_mint_time := 4000;
                 strategies := ["convex"] |}.
Proof.
  cbv zeta. eexists. split; [vm_compute; reflexivity|]. split; [reflexivity|].
  refine (proj1 (start_engine_overwrites 4000 4000
            {| walletAddress := "0xABC"; miningContract := "m";
               yieldAggregator := "y"; req_strategies := ["convex"] |}
            (get_metrics 0 0 3600 env_offline (Some "0xabc") (one_session 0)).1.1
            _ _)).
  vm_compute. reflexivity.
Defined.



(** ** Scaling and submission in [mint_tokens_to_wallet] *)

(** Every transaction the call asks the library to build carries the scaled
    amount and the fixed gas limit. *)
Lemma mint_events_build env wallet amount tx :
  Request (BuildTransaction tx) ∈ mint_events env wallet amount ->
  tx_amount tx = int_of_float (amount * inject_Z (10 ^ 18)) /\ tx_gas tx = 200000.
Proof.
  mint_cases ltac:(by (intros H; elem_cases H)).
Qed.



(** With a positive scaled amount and a token address the library accepts,
    the call starts its conversation with the node: it asks the gas price. *)
Lemma mint_requests_gas_price env wallet amount w admin token :
  w3 env = Some w -> admin_account env = Some admin ->
  to_checksum_address w (TOKEN_ADDRESS env) = Ok token ->
  0 < int_of_float (amount * inject_Z (10 ^ 18)) ->
  head (requests (mint_events env wallet amount)) = Some GasPrice.
Proof.
  intros Hw Ha Hc Hpos. apply Z.leb_gt in Hpos. revert Hw Ha Hc Hpos.
  mint_cases ltac:(intros; first [discriminate | congruence | reflexivity]).
Qed.


(** ** The guard of the settlement attempt *)

Lemma requests_app l1 l2 : requests (l1 ++ l2) = (requests l1 ++ requests l2)%list.
Proof. apply omap_app. Qed.

Lemma accrual_linear now s :
  (accrual now s == (48195 # 3153600) * (now - start_time s))%Q.
Proof. rewrite accrual_value. field. Qed.

(** Five seconds after [start_time] the total already exceeds one smallest
    unit of the token. *)
Lemma accumulated_scaled_pos now s :
  (0 <= total_earned s)%Q -> (5 <= now - start_time s)%Q ->
  0 < int_of_float (accumulated now s * inject_Z (10 ^ 18)).
Proof.
  intros Ht Hs. apply int_of_float_ge_1. unfold accumulated.
  pose proof (accrual_linear now s) as Ha.
  change (inject_Z (10 ^ 18)) with (1000000000000000000 # 1)%Q.
  set (a := accrual now s) in *. set (d := (now - start_time s)%Q) in *.
  set (e := total_earned s) in *. lra.
Qed.



(** ** Repeated queries *)

Lemma poll_cons h now env rest σ :
  poll h ((now, env) :: rest) σ
  = ((poll h rest (get_metrics now now now env h σ).1.1).1,
     ((get_metrics now now now env h σ).1.2
      ++ (poll h rest (get_metrics now now now env h σ).1.1).2)%list).
Proof. cbn [poll]. by destruct (poll h rest _). Qed.

(** Queries that do not confirm leave [start_time] and [last_mint_time] as
    they are and add, each, the accrual since [start_time]. *)
Lemma poll_accumulates h qs : forall σ s,
  opt_str_truthy h = true ->
  σ !! lower (default "" h) = Some s ->
  attempt_confirmed (poll h qs σ).2 = false ->
  exists s',
    (poll h qs σ).1 !! lower (default "" h) = Some s'
    /\ start_time s' = start_time s
    /\ last_mint_time s' = last_mint_time s
    /\ (total_earned s'
        == total_earned s + accrue 100000 1 * total_elapsed (start_time s) qs)%Q.
Proof.
  induction qs as [|[now env] rest IH]; intros σ s Hh Hs Hc.
  - exists s. cbn [poll fst total_elapsed]. split_and!; try done. ring.
  - rewrite poll_cons in Hc |- *. cbn [fst snd] in Hc |- *.
    rewrite attempt_confirmed_app in Hc. apply orb_false_elim in Hc as [Hc1 Hc2].
    destruct (get_metrics_verdict now now now env h σ Hh) as [Hv _].
    cbv zeta in Hv. rewrite Hc1 in Hv.
    assert (Hso : session_of now now σ (lower (default "" h)) = s).
    { unfold session_of. by rewrite Hs. }
    rewrite Hso in Hv.
    pose proof (get_metrics_run now now now env h σ Hh) as Hrun.
    cbv zeta in Hrun. rewrite Hso, <- Hv in Hrun.
    rewrite Hrun in Hc2 |- *. cbn [fst snd] in Hc2 |- *.
    destruct (IH _ (set_total_earned (accumulated now s) s) Hh
                (lookup_insert_eq _ _ _) Hc2) as (s' & Hl & Hst & Hlm & Hte).
    exists s'. split_and!; try done.
    rewrite Hte. cbn [total_earned set_total_earned start_time total_elapsed fst].
    unfold accumulated. rewrite accrual_accrue. unfold accrue. field.
Qed.

(** C3. The increment of a metrics query is computed from the time elapsed
    since [start_time]: a query at [now] on a session [s] reports
    [total_earned s] plus the accrual of the principal 100000 over
    [now - start_time s], and no earlier query enters it. Hence after a
    start at [t1] and any sequence of queries at times [now_1 ... now_k]
    none of which confirms a settlement, the stored total is the per-second
    rate times the principal times the sum of the [now_i - t1]. *)
Theorem queries_accrue_from_start_time t1 t2 req h qs σ :
  h <> "" -> lower h = lower (walletAddress req) ->
  let wallet := lower h in
  let σ1 := (start_engine t1 t2 req σ).1.1 in
  attempt_confirmed (poll (Some h) qs σ1).2 = false ->
  (forall now σ0 s, σ0 !! wallet = Some s ->
     forall env, exists resp,
       (get_metrics now now now env (Some h) σ0).2 = Ok resp
       /\ (totalProfit resp
           == total_earned s + accrue 100000 (now - start_time s))%Q)
  /\ exists s',
       (poll (Some h) qs σ1).1 !! wallet = Some s'
       /\ start_time s' = t1
       /\ (total_earned s'
           == effectiveRate / (365 * 86400) * 100000 * total_elapsed t1 qs)%Q.
Proof.
  intros Hne Hw wallet σ1 Hc.
  assert (Hh : opt_str_truthy (Some h) = true) by (by destruct h).
  split.
  - intros now σ0 s Hs env. eexists.
    rewrite (get_metrics_run _ _ _ _ _ _ Hh). cbn [snd default from_option id].
    split; [reflexivity|]. cbn [snapshot totalProfit].
    unfold session_of. fold wallet. rewrite Hs. cbn [default from_option id].
    unfold accumulated. by rewrite accrual_accrue.
  - assert (Hs : σ1 !! lower (default "" (Some h))
                 = Some {| start_time := t1; total_earned := 0;
                           last_mint_time := t2; strategies := req_strategies req |}).
    { unfold σ1. rewrite start_engine_run. cbn [fst default from_option id].
      rewrite Hw. apply lookup_insert_eq. }
    destruct (poll_accumulates (Some h) qs σ1 _ Hh Hs Hc) as (s' & Hl & Hst & _ & Hte).
    exists s'. split_and!; try done.
    rewrite Hte. cbn [total_earned start_time]. unfold accrue. field.
Qed.

(** Three queries at 10, 20 and 30 after a start at 0; the second one meets
    a node that reverts. *)
Lemma queries_accrue_from_start_time_witness :
  let req := {| walletAddress := "0xABC"; miningContract := "m";
                yieldAggregator := "y"; req_strategies := [] |} in
  let qs := [(10%Q, env_offline); (20%Q, env_with reverting_node);
             (30%Q, env_offline)] in
  exists s',
    (poll (Some "0xAbc") qs (start_engine 0 0 req ∅).1.1).1 !! "0xabc" = Some s'
    /\ start_time s' = 0%Q
    /\ (total_earned s' == effectiveRate / (365 * 86400) * 100000 * (10 + 20 + 30))%Q.
Proof.
  cbv zeta.
  destruct (queries_accrue_from_start_time 0 0
              {| walletAddress := "0xABC"; miningContract := "m";
                 yieldAggregator := "y"; req_strategies := [] |}
              "0xAbc"
              [(10%Q, env_offline); (20%Q, env_with reverting_node);
               (30%Q, env_offline)] ∅)
    as [_ (s' & Hl & Hst & Hte)].
  - discriminate.
  - reflexivity.
  - vm_compute. reflexivity.
  - exists s'. split_and!; [exact Hl|exact Hst|].
    rewrite Hte. cbn [total_elapsed fst]. ring.
Defined.

(** ** The pending amount along a run *)

Lemma nondecreasing_1 t a :
  nondecreasing t [a] = true -> (t <= a)%Q.
Proof. cbn. rewrite andb_true_r. apply Qle_bool_iff. Qed.

Lemma nondecreasing_2 t a b :
  nondecreasing t [a; b] = true -> (t <= a)%Q /\ (a <= b)%Q.
Proof.
  cbn. rewrite andb_true_r. intros H. apply andb_prop in H as [H1 H2].
  split; by apply Qle_bool_iff.
Qed.

Lemma nondecreasing_3 t a b c :
  nondecreasing t [a; b; c] = true -> (t <= a)%Q /\ (a <= b)%Q /\ (b <= c)%Q.
Proof.
  cbn. rewrite andb_true_r. intros H. apply andb_prop in H as [H1 H2].
  apply andb_prop in H2 as [H2 H3]. split_and!; by apply Qle_bool_iff.
Qed.

(** The session a query works on is in order at the query's [now], and it
    holds the pending amount of the account. *)
Lemma session_of_ok t σ t_start t_last now env h :
  sessions_ok t σ -> opt_str_truthy h = true ->
  nondecreasing t (clock_reads (OpMetrics t_start t_last now env h) σ) = true ->
  let s := session_of t_start t_last σ (lower (default "" h)) in
  (t <= now)%Q /\ (start_time s <= now)%Q /\ (0 <= total_earned s)%Q
  /\ total_earned s = pending σ (lower (default "" h)).
Proof.
  intros Hok Hh Hnd. cbn [clock_reads] in Hnd. rewrite Hh in Hnd.
  unfold session_of, pending.
  destruct (σ !! lower (default "" h)) as [s0|] eqn:E; cbn [default from_option id].
  - apply nondecreasing_1 in Hnd. destruct (Hok _ _ E) as [H1 H2].
    split_and!; try done. by eapply Qle_trans.
  - apply nondecreasing_3 in Hnd as (H1 & H2 & H3).
    cbn [fresh_session start_time total_earned]. split_and!; try done.
    + eapply Qle_trans; [exact H1|]. by eapply Qle_trans.
    + by eapply Qle_trans.
Qed.

(** One request keeps the sessions in order, and the pending amount of an
    account that is tracked after it has grown by a non-negative increment
    or has been set to zero by a start or a confirmed settlement. *)
Lemma run_op_ok t σ op :
  sessions_ok t σ -> nondecreasing t (clock_reads op σ) = true ->
  sessions_ok (List.last (clock_reads op σ) t) (run_op op σ).1
  /\ forall wallet s', (run_op op σ).1 !! wallet = Some s' ->
       (exists inc, (0 <= inc)%Q /\ (total_earned s' == pending σ wallet + inc)%Q)
       \/ (total_earned s' = 0%Q /\ (starts wallet op \/ settles wallet op σ)).
Proof.
  intros Hok Hnd.
  assert (Hkeep : forall wallet s', σ !! wallet = Some s' ->
            exists inc, (0 <= inc)%Q /\ (total_earned s' == pending σ wallet + inc)%Q).
  { intros wallet s' E. exists 0%Q. unfold pending. rewrite E.
    split; [discriminate|ring]. }
  destruct op as [t1 t2 req|t_start t_last now env h|data].
  - apply nondecreasing_2 in Hnd as [H1 H2].
    cbn [run_op clock_reads List.last]. rewrite start_engine_run. cbn [fst].
    split.
    + intros wallet s. rewrite lookup_insert. case_decide.
      * intros [= <-]. cbn. split; [done|discriminate].
      * intros E. destruct (Hok _ _ E) as [H3 H4]. split; [|done].
        eapply Qle_trans; [exact H3|]. by eapply Qle_trans.
    + intros wallet s'. rewrite lookup_insert. case_decide.
      * intros [= <-]. right. split; [done|]. by left.
      * intros E. left. by apply Hkeep.
  - destruct (opt_str_truthy h) eqn:Hh.
    + destruct (session_of_ok t σ t_start t_last now env h Hok Hh Hnd)
        as (Ht & Hst & Hte & Hp).
      assert (Hlast : List.last (clock_reads (OpMetrics t_start t_last now env h) σ) t = now).
      { cbn [clock_reads]. rewrite Hh. by destruct (σ !! _). }
      rewrite Hlast.
      destruct (get_metrics_verdict t_start t_last now env h σ Hh) as [Hv _].
      cbv zeta in Hv.
      unfold settles. cbn [run_op]. 
      rewrite (get_metrics_run _ _ _ _ _ _ Hh) in Hv |- *. cbn [fst snd] in Hv |- *.
      set (wallet0 := lower (default "" h)) in *.
      set (s := session_of t_start t_last σ wallet0) in *.
      pose proof (accrual_nonneg now s Hst) as Hacc.
      split.
      * intros wallet s'. rewrite lookup_insert. case_decide.
        -- intros [= <-]. destruct (_ && _); cbn; (split; [done|]).
           ++ discriminate.
           ++ unfold accumulated. lra.
        -- intros E. destruct (Hok _ _ E) as [H3 H4]. split; [|done].
           by eapply Qle_trans.
      * intros wallet s'. rewrite lookup_insert. case_decide.
        -- intros [= <-]. subst wallet. fold wallet0.
           destruct (due now env s && _) eqn:Hd.
           ++ right. split; [done|]. right. split; [done|].
              exact Hv.
           ++ left. exists (accrual now s). split; [done|].
              cbn [total_earned set_total_earned]. unfold accumulated.
              by rewrite Hp.
        -- intros E. left. by apply Hkeep.
    + cbn [run_op clock_reads]. rewrite Hh.
      rewrite (get_metrics_no_header _ _ _ _ _ _ Hh). cbn [fst List.last].
      split; [done|]. intros wallet s' E. left. by apply Hkeep.
  - cbn [run_op clock_reads List.last].
    destruct (default (JStr "") (data !! "walletAddress")) as [address|] eqn:Hd.
    + rewrite (stop_engine_run _ _ _ Hd). cbn [fst].
      split.
      * intros wallet s E. apply lookup_delete_Some in E as [_ E]. exact (Hok _ _ E).
      * intros wallet s' E. apply lookup_delete_Some in E as [_ E].
        left. by apply Hkeep.
    + unfold stop_engine. rewrite Hd. cbn [fst raise]. split; [done|].
      intros wallet s' E. left. by apply Hkeep.
Qed.

Lemma reachable_ok t σ : reachable t σ -> sessions_ok t σ.
Proof.
  induction 1 as [t|t σ op Hr IH Hnd].
  - intros wallet s E. by rewrite lookup_empty in E.
  - by apply run_op_ok.
Qed.



(** ** Worked scenarios *)

(** A mint of half a token on a node that answers: the requests, in order,
    with the amount in the smallest unit and the gas price raised by 20%. *)
Example mint_half_token_requests :
  requests (mint_events (env_with confirming_node) "0xabc" (1 # 2))
  = [ GasPrice; GetTransactionCount "0xAd"; ChainId;
      BuildTransaction
        {| tx_to := "0x8502496d6739dd6e18ced318c4b5fc12a5fb2c2c";
           tx_recipient := "0xabc"; tx_amount := 500000000000000000;
           tx_from := "0xAd"; tx_nonce := 7; tx_gas := 200000;
           tx_gasPrice := 36000000000; tx_chainId := 1 |};
      SignTransaction
        {| tx_to := "0x8502496d6739dd6e18ced318c4b5fc12a5fb2c2c";
           tx_recipient := "0xabc"; tx_amount := 500000000000000000;
           tx_from := "0xAd"; tx_nonce := 7; tx_gas := 200000;
           tx_gasPrice := 36000000000; tx_chainId := 1 |};
      SendRawTransaction "signed";
      WaitForTransactionReceipt "0xfeed" 120 ]
  /\ mint_value (env_with confirming_node) "0xabc" (1 # 2) = Some "0xfeed"
  /\ mint_value (env_with reverting_node) "0xabc" (1 # 2) = None
  /\ mint_value (env_with timing_out_node) "0xabc" (1 # 2) = None
  /\ mint_value (env_with rejecting_node) "0xabc" (1 # 2) = None.
Proof. vm_compute. done. Qed.

(** An amount below the smallest unit, and a negative one: nothing is asked
    of the node. *)
Example mint_dust_no_requests :
  mint_events (env_with confirming_node) "0xabc" (1 # 2000000000000000000) = []
  /\ mint_events (env_with confirming_node) "0xabc" (- (3))%Q = [].
Proof. vm_compute. done. Qed.

(** The account ["0xabc"] is started at 0 and queried after one hour on a
    node that confirms: the query reports [100000 * R / 8760], the mint
    carries that amount in the smallest unit, and the stored total is zero
    afterwards. *)
Example one_hour_then_settled :
  let req := {| walletAddress := "0xabc"; miningContract := "m";
                yieldAggregator := "y"; req_strategies := [] |} in
  let σ1 := (start_engine 0 0 req ∅).1.1 in
  let out := get_metrics 3600 3600 3600 (env_with confirming_node)
               (Some "0xabc") σ1 in
  (exists resp, out.2 = Ok resp
     /\ (totalProfit resp == 100000 * effectiveRate / 8760)%Q
     /\ (hourlyRate resp == totalProfit resp)%Q
     /\ total_apy_percent resp = "481.95%"
     /\ activePositions resp = 12%nat)
  /\ (exists tx, BuildTransaction tx ∈ requests out.1.2
                 /\ tx_amount tx = 55017123287671232876)
  /\ attempt_confirmed out.1.2 = true
  /\ (pending out.1.1 "0xabc" == 0)%Q.
Proof.
  cbv zeta. split_and!.
  - eexists. split; [vm_compute; reflexivity|].
    split_and!; vm_compute; reflexivity.
  - eexists. split.
    + vm_compute. do 3 apply list_elem_of_further. apply list_elem_of_here.
    + reflexivity.
  - vm_compute. reflexivity.
  - vm_compute. reflexivity.
Qed.

(** * Further properties of the code *)

(** ** Addresses are compared in lower case *)

Lemma ascii_lower_idemp c : ascii_lower (ascii_lower c) = ascii_lower c.
Proof. destruct c as [[] [] [] [] [] [] [] []]; reflexivity. Qed.

Lemma lower_idemp s : lower (lower s) = lower s.
Proof.
  induction s as [|c r IH]; [reflexivity|].
  cbn [lower]. by rewrite ascii_lower_idemp, IH.
Qed.

Lemma lower_truthy s : str_truthy (lower s) = str_truthy s.
Proof. by destruct s. Qed.

Lemma lower_eq_truthy a b : lower a = lower b -> str_truthy a = str_truthy b.
Proof. intros H. by rewrite <- (lower_truthy a), <- (lower_truthy b), H. Qed.

(** X1. Two addresses with the same lower-case form name the same account:
    a metrics query, a start and a stop behave identically on them (same
    dictionary, same events, same response). Lower-casing is idempotent, so
    an address and its lower-case form are such a pair. *)
Theorem same_account_any_case a b :
  lower a = lower b ->
  (forall t_start t_last now env σ,
     get_metrics t_start t_last now env (Some a) σ
     = get_metrics t_start t_last now env (Some b) σ)
  /\ (forall t1 t2 mining aggregator chosen σ,
        start_engine t1 t2
          {| walletAddress := a; miningContract := mining;
             yieldAggregator := aggregator; req_strategies := chosen |} σ
        = start_engine t1 t2
            {| walletAddress := b; miningContract := mining;
               yieldAggregator := aggregator; req_strategies := chosen |} σ)
  /\ (forall σ,
        stop_engine {[ "walletAddress" := JStr a ]} σ
        = stop_engine {[ "walletAddress" := JStr b ]} σ)
  /\ lower (lower a) = lower a.
Proof.
  intros Hab. split_and!.
  - intros t_start t_last now env σ.
    pose proof (lower_eq_truthy _ _ Hab) as Ht.
    destruct (str_truthy a) eqn:Ha.
    + rewrite !get_metrics_run by (cbn [opt_str_truthy]; congruence).
      cbn [default from_option id]. by rewrite Hab.
    + rewrite !get_metrics_no_header by (cbn [opt_str_truthy]; congruence).
      reflexivity.
  - intros. rewrite !start_engine_run. cbn [walletAddress]. by rewrite Hab.
  - intros σ.
    rewrite (stop_engine_run _ a), (stop_engine_run _ b)
      by (by rewrite lookup_singleton_eq).
    by rewrite Hab.
  - apply lower_idemp.
Qed.

(** The mixed-case and the lower-case spelling of one address. *)
Lemma same_account_any_case_witness :
  get_metrics 0 0 7 (env_with confirming_node) (Some "0xAbC") (one_session 3)
  = get_metrics 0 0 7 (env_with confirming_node) (Some "0xabc") (one_session 3).
Proof.
  apply (same_account_any_case "0xAbC" "0xabc"). reflexivity.
Defined.

(** ** Invariants of a run *)

Lemma last_nonempty (l : list Q) a d d' :
  List.last (a :: l) d = List.last (a :: l) d'.
Proof.
  revert a. induction l as [|b l IH]; intros a; [reflexivity|].
  change (List.last (b :: l) d = List.last (b :: l) d'). apply IH.
Qed.

Lemma nondecreasing_last t reads :
  nondecreasing t reads = true -> (t <= List.last reads t)%Q.
Proof.
  revert t. induction reads as [|r rest IH]; intros t H.
  - apply Qle_refl.
  - cbn [nondecreasing] in H. apply andb_prop in H as [H1 H2].
    apply Qle_bool_iff in H1. specialize (IH _ H2).
    destruct rest as [|r' rest']; [exact H1|].
    change (List.last (r :: r' :: rest') t) with (List.last (r' :: rest') t).
    rewrite (last_nonempty rest' r' t r). by eapply Qle_trans.
Qed.

Lemma run_op_entries_ok t σ op :
  entries_ok t σ -> nondecreasing t (clock_reads op σ) = true ->
  entries_ok (List.last (clock_reads op σ) t) (run_op op σ).1.
Proof.
  intros Hok Hnd. pose proof (nondecreasing_last _ _ Hnd) as Hle.
  assert (Hold : forall wallet s, σ !! wallet = Some s ->
            lower wallet = wallet
            /\ (start_time s <= last_mint_time s)%Q
            /\ (last_mint_time s <= List.last (clock_reads op σ) t)%Q).
  { intros wallet s E. destruct (Hok _ _ E) as (H1 & H2 & H3).
    split_and!; try done. by eapply Qle_trans. }
  destruct op as [t1 t2 req|t_start t_last now env h|data].
  - apply nondecreasing_2 in Hnd as [H1 H2].
    cbn [run_op]. rewrite start_engine_run. cbn [fst clock_reads List.last] in *.
    intros wallet s. rewrite lookup_insert. case_decide.
    + intros [= <-]. subst wallet. cbn [start_time last_mint_time].
      split_and!; [apply lower_idemp|done|apply Qle_refl].
    + by apply Hold.
  - destruct (opt_str_truthy h) eqn:Hh.
    + cbn [run_op]. rewrite (get_metrics_run _ _ _ _ _ _ Hh). cbn [fst].
      assert (Hlast : List.last (clock_reads (OpMetrics t_start t_last now env h) σ) t
                      = now).
      { cbn [clock_reads]. rewrite Hh. by destruct (σ !! _). }
      rewrite Hlast in *.
      set (wallet0 := lower (default "" h)) in *.
      assert (Hs : (start_time (session_of t_start t_last σ wallet0)
                    <= last_mint_time (session_of t_start t_last σ wallet0))%Q
                   /\ (last_mint_time (session_of t_start t_last σ wallet0) <= now)%Q).
      { unfold session_of. cbn [clock_reads] in Hnd. rewrite Hh in Hnd.
        fold wallet0 in Hnd.
        destruct (σ !! wallet0) as [s0|] eqn:E; cbn [default from_option id].
        - destruct (Hold _ _ E) as (_ & H2 & H3). done.
        - apply nondecreasing_3 in Hnd as (_ & H2 & H3). done. }
      destruct Hs as [Hs1 Hs2].
      intros wallet s. rewrite lookup_insert. case_decide.
      * intros [= <-]. subst wallet. split; [apply lower_idemp|].
        destruct (_ && _); cbn [start_time last_mint_time set_total_earned
                                  set_last_mint_time].
        -- split; [by eapply Qle_trans|apply Qle_refl].
        -- done.
      * by apply Hold.
    + cbn [run_op]. rewrite (get_metrics_no_header _ _ _ _ _ _ Hh). cbn [fst].
      exact Hold.
  - cbn [run_op].
    destruct (default (JStr "") (data !! "walletAddress")) as [address|] eqn:Hd.
    + rewrite (stop_engine_run _ _ _ Hd). cbn [fst].
      intros wallet s E. apply lookup_delete_Some in E as [_ E]. by apply Hold.
    + unfold stop_engine. rewrite Hd. cbn [fst raise]. exact Hold.
Qed.

Lemma reachable_entries_ok t σ : reachable t σ -> entries_ok t σ.
Proof.
  induction 1 as [t|t σ op Hr IH Hnd].
  - intros wallet s E. by rewrite lookup_empty in E.
  - by apply run_op_entries_ok.
Qed.

(** X2. In every dictionary the service can reach under a clock that does
    not go back, every key is in lower case (it is its own lower-case
    form), and every session was started no later than it was last minted,
    which is no later than the last read of the clock. *)
Theorem reachable_keys_and_times t σ wallet s :
  reachable t σ -> σ !! wallet = Some s ->
  lower wallet = wallet
  /\ (start_time s <= last_mint_time s)%Q
  /\ (last_mint_time s <= t)%Q
  /\ (start_time s <= t)%Q.
Proof.
  intros Hr E. destruct (reachable_entries_ok _ _ Hr _ _ E) as (H1 & H2 & H3).
  split_and!; try done. by eapply Qle_trans.
Qed.

(** X3. In a reachable dictionary, whenever the guard of the settlement
    holds for a query (five seconds since the last mint, node and key set)
    and the library accepts the token address, the mint does reach the
    node: the total exceeds one smallest unit, so the return on a zero
    amount is never taken and the gas price is requested. *)
Theorem due_attempt_reaches_node t σ t_start t_last now env h w token :
  reachable t σ ->
  nondecreasing t (clock_reads (OpMetrics t_start t_last now env h) σ) = true ->
  opt_str_truthy h = true ->
  due now env (session_of t_start t_last σ (lower (default "" h))) = true ->
  w3 env = Some w ->
  to_checksum_address w (TOKEN_ADDRESS env) = Ok token ->
  0 < int_of_float
        (accumulated now (session_of t_start t_last σ (lower (default "" h)))
         * inject_Z (10 ^ 18))
  /\ head (requests (get_metrics t_start t_last now env h σ).1.2) = Some GasPrice.
Proof.
  intros Hr Hnd Hh Hdue Hw Htok.
  pose proof (reachable_ok _ _ Hr) as Hok.
  pose proof (reachable_entries_ok _ _ Hr) as Hent.
  destruct (session_of_ok t σ t_start t_last now env h Hok Hh Hnd)
    as (_ & _ & Hte & _).
  set (s := session_of t_start t_last σ (lower (default "" h))) in *.
  assert (Hsl : (start_time s <= last_mint_time s)%Q).
  { unfold s, session_of. cbn [clock_reads] in Hnd. rewrite Hh in Hnd.
    destruct (σ !! lower (default "" h)) as [s0|] eqn:E; cbn [default from_option id].
    - by destruct (Hent _ _ E) as (_ & H2 & _).
    - by apply nondecreasing_3 in Hnd as (_ & H2 & _). }
  pose proof (due_time _ _ _ Hdue) as H5.
  assert (Hpos : 0 < int_of_float (accumulated now s * inject_Z (10 ^ 18))).
  { apply accumulated_scaled_pos; [done|].
    set (lm := last_mint_time s) in *. set (st := start_time s) in *. lra. }
  split; [exact Hpos|].
  rewrite (get_metrics_run _ _ _ _ _ _ Hh). cbn [fst snd]. fold s. rewrite Hdue.
  rewrite requests_app. cbn [requests omap]. rewrite app_nil_r.
  destruct (due_available _ _ _ Hdue) as [_ [admin Ha]].
  by eapply mint_requests_gas_price.
Qed.

Lemma after_one_hour_reachable : reachable 3600 after_one_hour.
Proof.
  assert (R1 : reachable 0 (run_op (OpStart 0 0 abc_request) ∅).1).
  { apply (reachable_step 0 ∅ (OpStart 0 0 abc_request) (reachable_init 0)).
    reflexivity. }
  apply (reachable_step 0 _ (OpMetrics 0 0 3600 env_offline (Some "0xabc")) R1).
  vm_compute. reflexivity.
Qed.

Lemma after_one_hour_lookup :
  exists s, after_one_hour !! "0xabc" = Some s
    /\ start_time s = 0%Q /\ last_mint_time s = 0%Q
    /\ strategies s = ["convex"; "staking"]
    /\ (total_earned s == 16065 # 292)%Q.
Proof. eexists. split; [vm_compute; reflexivity|]. split_and!; reflexivity. Qed.

(** The account started at 0 and queried after an hour. *)
Lemma reachable_keys_and_times_witness :
  exists s, after_one_hour !! "0xabc" = Some s
    /\ lower "0xabc" = "0xabc"
    /\ (start_time s <= last_mint_time s)%Q
    /\ (last_mint_time s <= 3600)%Q
    /\ (start_time s <= 3600)%Q.
Proof.
  destruct after_one_hour_lookup as (s & E & _).
  exists s. split; [exact E|].
  exact (reachable_keys_and_times 3600 after_one_hour "0xabc" s
           after_one_hour_reachable E).
Defined.

(** A query at 3700 on a node that answers, an hour after the start. *)
Lemma due_attempt_reaches_node_witness :
  0 < int_of_float
        (accumulated 3700 (session_of 3700 3700 after_one_hour (lower "0xABC"))
         * inject_Z (10 ^ 18))
  /\ head (requests (get_metrics 3700 3700 3700 (env_with confirming_node)
                       (Some "0xABC") after_one_hour).1.2) = Some GasPrice.
Proof.
  apply (due_attempt_reaches_node 3600 after_one_hour 3700 3700 3700
           (env_with confirming_node) (Some "0xABC") confirming_node
           "0x8502496d6739dd6e18ced318c4b5fc12a5fb2c2c").
  - exact after_one_hour_reachable.
  - vm_compute. reflexivity.
  - reflexivity.
  - vm_compute. reflexivity.
  - reflexivity.
  - reflexivity.
Defined.

(** ** What a metrics query touches *)

(** X4. A metrics query touches one entry only. Every other account keeps
    its entry, no account is removed, and the entry of the queried account
    keeps its [start_time] and its strategies; when the header is missing
    or empty the dictionary is unchanged. *)
Theorem get_metrics_frame t_start t_last now env h σ :
  let wallet := lower (default "" h) in
  let σ' := (get_metrics t_start t_last now env h σ).1.1 in
  (forall other, other <> wallet -> σ' !! other = σ !! other)
  /\ (forall other, is_Some (σ !! other) -> is_Some (σ' !! other))
  /\ (forall s, σ !! wallet = Some s ->
        exists s', σ' !! wallet = Some s'
          /\ start_time s' = start_time s /\ strategies s' = strategies s)
  /\ (opt_str_truthy h = false -> σ' = σ).
Proof.
  intros wallet σ'. unfold σ'.
  destruct (opt_str_truthy h) eqn:Hh.
  - rewrite (get_metrics_run _ _ _ _ _ _ Hh). cbn [fst]. fold wallet.
    split_and!.
    + intros other Hne. by rewrite lookup_insert_ne.
    + intros other Hs. rewrite lookup_insert. by case_decide.
    + intros s E. unfold session_of. rewrite E. cbn [default from_option id].
      eexists. rewrite lookup_insert_eq. split; [reflexivity|].
      by destruct (_ && _).
    + discriminate.
  - rewrite (get_metrics_no_header _ _ _ _ _ _ Hh). cbn [fst].
    split_and!; try done. intros s E. by exists s.
Qed.

(** X5. Queries for two different accounts do not interfere: each returns
    the response it would return alone, with the events it would emit
    alone, and the dictionary after both is the same in either order. *)
Theorem get_metrics_commute ts1 tl1 now1 env1 h1 ts2 tl2 now2 env2 h2 σ :
  h1 <> "" -> h2 <> "" -> lower h1 <> lower h2 ->
  let q1 := get_metrics ts1 tl1 now1 env1 (Some h1) in
  let q2 := get_metrics ts2 tl2 now2 env2 (Some h2) in
  (q2 (q1 σ).1.1).1.1 = (q1 (q2 σ).1.1).1.1
  /\ (q2 (q1 σ).1.1).2 = (q2 σ).2 /\ (q2 (q1 σ).1.1).1.2 = (q2 σ).1.2
  /\ (q1 (q2 σ).1.1).2 = (q1 σ).2 /\ (q1 (q2 σ).1.1).1.2 = (q1 σ).1.2.
Proof.
  intros H1 H2 Hne q1 q2. unfold q1, q2.
  assert (Ht1 : opt_str_truthy (Some h1) = true) by (by destruct h1).
  assert (Ht2 : opt_str_truthy (Some h2) = true) by (by destruct h2).
  rewrite !(get_metrics_run ts1 tl1 now1 env1 _ _ Ht1).
  rewrite !(get_metrics_run ts2 tl2 now2 env2 _ _ Ht2).
  cbn [fst snd default from_option id].
  assert (E21 : forall x, session_of ts2 tl2 (<[lower h1 := x]> σ) (lower h2)
                          = session_of ts2 tl2 σ (lower h2)).
  { intros x. unfold session_of. by rewrite lookup_insert_ne. }
  assert (E12 : forall x, session_of ts1 tl1 (<[lower h2 := x]> σ) (lower h1)
                          = session_of ts1 tl1 σ (lower h1)).
  { intros x. unfold session_of. by rewrite lookup_insert_ne. }
  rewrite !E21, !E12. split_and!; try reflexivity.
  by apply insert_insert_ne.
Qed.

(** Two accounts queried in either order. *)
Lemma get_metrics_commute_witness :
  (get_metrics 9 9 9 env_offline (Some "0xDEF")
     (get_metrics 8 8 8 (env_with confirming_node) (Some "0xabc")
        (one_session 3)).1.1).1.1
  = (get_metrics 8 8 8 (env_with confirming_node) (Some "0xabc")
       (get_metrics 9 9 9 env_offline (Some "0xDEF") (one_session 3)).1.1).1.1.
Proof.
  apply (get_metrics_commute 8 8 8 (env_with confirming_node) "0xabc"
           9 9 9 env_offline "0xDEF" (one_session 3)); discriminate.
Defined.

Lemma accumulated_forget now s :
  accumulated now (forget_strategies s) = accumulated now s.
Proof. reflexivity. Qed.

Lemma session_of_forget t_start t_last σ wallet :
  session_of t_start t_last (forget_strategies <$> σ) wallet
  = forget_strategies (session_of t_start t_last σ wallet).
Proof. unfold session_of. rewrite lookup_fmap. by destruct (σ !! wallet). Qed.

(** X6. The strategies stored with a session do not enter a metrics query:
    on the dictionary with every session's strategies erased the query
    returns the same response and emits the same events, and it leaves the
    same dictionary up to the strategies. *)
Theorem get_metrics_ignores_strategies t_start t_last now env h σ :
  let erased := forget_strategies <$> σ in
  (get_metrics t_start t_last now env h erased).2
  = (get_metrics t_start t_last now env h σ).2
  /\ (get_metrics t_start t_last now env h erased).1.2
     = (get_metrics t_start t_last now env h σ).1.2
  /\ (get_metrics t_start t_last now env h erased).1.1
     = forget_strategies <$> (get_metrics t_start t_last now env h σ).1.1.
Proof.
  intros erased. unfold erased.
  destruct (opt_str_truthy h) eqn:Hh.
  - rewrite !(get_metrics_run _ _ _ _ _ _ Hh). cbn [fst snd].
    rewrite session_of_forget.
    set (s := session_of t_start t_last σ (lower (default "" h))).
    change (due now env (forget_strategies s)) with (due now env s).
    rewrite accumulated_forget.
    split_and!; try reflexivity.
    rewrite fmap_insert. f_equal. by destruct (_ && _).
  - rewrite !(get_metrics_no_header _ _ _ _ _ _ Hh). done.
Qed.

(** ** The figures of the response *)

Lemma Qlt_bool_iff x y : Qlt_bool x y = true <-> (x < y)%Q.
Proof.
  unfold Qlt_bool. rewrite negb_true_iff. split.
  - intros H. apply Qnot_le_lt. intros Hle. apply Qle_bool_iff in Hle. congruence.
  - intros H. destruct (Qle_bool y x) eqn:E; [|done].
    apply Qle_bool_iff in E. exfalso. by apply (Qlt_not_le _ _ H).
Qed.

(** X7. The hourly rate of a response does not depend on the account: once
    the session is older than the query's [now] by any positive time it is
    [100000 * effectiveRate / 8760], and the daily figure is 24 times it;
    on a session that is not older (also when the clock reads before
    [start_time]) both are zero and nothing is divided by zero. The pending
    rewards are a tenth of the total profit. *)
Theorem metrics_rates t_start t_last now env h σ resp :
  (get_metrics t_start t_last now env h σ).2 = Ok resp ->
  let s := session_of t_start t_last σ (lower (default "" h)) in
  ((start_time s < now)%Q ->
     (hourlyRate resp == 100000 * effectiveRate / 8760)%Q
     /\ (dailyProfit resp == 24 * (100000 * effectiveRate / 8760))%Q)
  /\ ((now <= start_time s)%Q ->
        hourlyRate resp = 0%Q /\ (dailyProfit resp == 0)%Q)
  /\ (pendingRewards resp == totalProfit resp / 10)%Q.
Proof.
  intros Hr s.
  destruct (opt_str_truthy h) eqn:Hh;
    [|by rewrite (get_metrics_no_header _ _ _ _ _ _ Hh) in Hr].
  rewrite (get_metrics_run _ _ _ _ _ _ Hh) in Hr. cbn [snd] in Hr.
  injection Hr as <-. fold s. cbn [snapshot hourlyRate dailyProfit pendingRewards
                                   totalProfit].
  split_and!.
  - intros Hlt.
    assert (Hb : Qlt_bool 0 (now - start_time s) = true).
    { apply Qlt_bool_iff. unfold Qminus. by rewrite <- Qlt_minus_iff. }
    rewrite Hb.
    assert (Hd : ~ (now - start_time s == 0)%Q).
    { intros H0. apply Qlt_bool_iff in Hb. rewrite H0 in Hb.
      by apply (Qlt_irrefl 0). }
    assert (Hh1 : (accrual now s / (now - start_time s) * 3600
                   == 100000 * effectiveRate / 8760)%Q).
    { rewrite accrual_accrue. unfold accrue. field. done. }
    rewrite Hh1. split; [reflexivity|ring].
  - intros Hle.
    assert (Hb : Qlt_bool 0 (now - start_time s) = false).
    { destruct (Qlt_bool 0 (now - start_time s)) eqn:E; [|done].
      apply Qlt_bool_iff in E. unfold Qminus in E. rewrite <- Qlt_minus_iff in E.
      exfalso. by apply (Qlt_not_le _ _ E). }
    rewrite Hb. split; [reflexivity|ring].
  - field.
Qed.

(** A query one hour after the start. *)
Lemma metrics_rates_witness :
  exists resp,
    (get_metrics 0 0 3600 env_offline (Some "0xabc") (one_session 0)).2 = Ok resp
    /\ (hourlyRate resp == 100000 * effectiveRate / 8760)%Q
    /\ (dailyProfit resp == 24 * (100000 * effectiveRate / 8760))%Q.
Proof.
  eexists. split; [reflexivity|].
  refine (proj1 (metrics_rates 0 0 3600 env_offline (Some "0xabc") (one_session 0)
                   _ eq_refl) _).
  vm_compute. reflexivity.
Defined.

(** X8. Elapsed time is not clamped: a query whose [now] is before the
    session's [start_time] reports a total below the stored one and an
    hourly rate of zero, and unless a settlement confirms the lower total is
    what is stored. *)
Theorem clock_before_start_lowers_total t_start t_last now env h σ s :
  h <> "" -> σ !! lower h = Some s -> (now < start_time s)%Q ->
  exists resp,
    (get_metrics t_start t_last now env (Some h) σ).2 = Ok resp
    /\ (totalProfit resp < total_earned s)%Q
    /\ hourlyRate resp = 0%Q
    /\ (attempt_confirmed (get_metrics t_start t_last now env (Some h) σ).1.2 = false ->
        exists s', (get_metrics t_start t_last now env (Some h) σ).1.1 !! lower h
                   = Some s' /\ total_earned s' = totalProfit resp).
Proof.
  intros Hne E Hlt.
  assert (Hh : opt_str_truthy (Some h) = true) by (by destruct h).
  destruct (get_metrics_verdict t_start t_last now env (Some h) σ Hh) as [Hv _].
  cbv zeta in Hv.
  rewrite (get_metrics_run _ _ _ _ _ _ Hh) in Hv |- *.
  cbn [fst snd default from_option id] in Hv |- *.
  assert (Hs : session_of t_start t_last σ (lower h) = s).
  { unfold session_of. by rewrite E. }
  rewrite Hs in Hv |- *.
  eexists. split; [reflexivity|].
  cbn [snapshot totalProfit hourlyRate]. split_and!.
  - unfold accumulated. pose proof (accrual_linear now s) as Ha.
    set (a := accrual now s) in *. set (st := start_time s) in *.
    set (te := total_earned s) in *. lra.
  - assert (Hb : Qlt_bool 0 (now - start_time s) = false).
    { destruct (Qlt_bool 0 (now - start_time s)) eqn:Eb; [|done].
      apply Qlt_bool_iff in Eb. exfalso.
      set (st := start_time s) in *. lra. }
    by rewrite Hb.
  - intros Hc. rewrite Hc in Hv. rewrite <- Hv.
    eexists. rewrite lookup_insert_eq. split; reflexivity.
Qed.

(** A session started at 100 and queried when the clock reads 40. *)
Lemma clock_before_start_lowers_total_witness :
  exists resp,
    (get_metrics 40 40 40 env_offline (Some "0xabc")
       {[ "0xabc" := {| start_time := 100; total_earned := 3;
                        last_mint_time := 100; strategies := [] |} ]}).2 = Ok resp
    /\ (totalProfit resp < 3)%Q /\ hourlyRate resp = 0%Q.
Proof.
  destruct (clock_before_start_lowers_total 40 40 40 env_offline "0xabc"
              {[ "0xabc" := {| start_time := 100; total_earned := 3;
                               last_mint_time := 100; strategies := [] |} ]}
              {| start_time := 100; total_earned := 3;
                 last_mint_time := 100; strategies := [] |})
    as (resp & Hr & Hlt & Hz & _).
  - discriminate.
  - vm_compute. reflexivity.
  - reflexivity.
  - exists resp. split_and!; assumption.
Defined.

(** ** After a confirmed settlement *)

(** The entry a confirmed query leaves. *)
Lemma confirmed_entry t_start t_last now env h σ :
  attempt_confirmed (get_metrics t_start t_last now env h σ).1.2 = true ->
  let wallet := lower (default "" h) in
  let s := session_of t_start t_last σ wallet in
  opt_str_truthy h = true
  /\ (get_metrics t_start t_last now env h σ).1.1 !! wallet
     = Some (set_total_earned 0
               (set_last_mint_time now (set_total_earned (accumulated now s) s))).
Proof.
  intros Hc wallet s.
  destruct (opt_str_truthy h) eqn:Hh;
    [|by rewrite (no_header_no_verdict _ _ _ _ _ _ Hh) in Hc].
  split; [done|].
  destruct (get_metrics_verdict t_start t_last now env h σ Hh) as [Hv _].
  cbv zeta in Hv. fold wallet s in Hv. rewrite Hc in Hv.
  rewrite (get_metrics_run _ _ _ _ _ _ Hh). cbn [fst]. fold wallet s.
  rewrite <- Hv. apply lookup_insert_eq.
Qed.

(** X9. A confirmed settlement resets the total and [last_mint_time] but
    not [start_time]: the next query for the account, at any [now'],
    reports the accrual of the principal over the whole time since the
    original start, not over the time since the settlement. *)
Theorem accrual_restarts_from_start_time t_start t_last now env h σ now' env' :
  attempt_confirmed (get_metrics t_start t_last now env h σ).1.2 = true ->
  let s := session_of t_start t_last σ (lower (default "" h)) in
  let σ' := (get_metrics t_start t_last now env h σ).1.1 in
  exists s' resp',
    σ' !! lower (default "" h) = Some s'
    /\ start_time s' = start_time s
    /\ strategies s' = strategies s
    /\ (get_metrics now' now' now' env' h σ').2 = Ok resp'
    /\ (totalProfit resp' == accrue 100000 (now' - start_time s))%Q.
Proof.
  intros Hc s σ'.
  destruct (confirmed_entry _ _ _ _ _ _ Hc) as [Hh E]. cbv zeta in E.
  fold s σ' in E.
  eexists _, _. split; [exact E|]. split; [reflexivity|]. split; [reflexivity|].
  rewrite (get_metrics_run _ _ _ _ _ _ Hh). cbn [snd]. split; [reflexivity|].
  cbn [snapshot totalProfit]. unfold session_of at 1. rewrite E.
  cbn [default from_option id]. unfold accumulated.
  cbn [total_earned set_total_earned].
  rewrite (accrual_accrue now').
  cbn [start_time set_total_earned set_last_mint_time]. ring.
Qed.

(** A settlement at 3700 and a query ten seconds later: the total counts
    3710 seconds. *)
Lemma accrual_restarts_from_start_time_witness :
  exists s' resp',
    (get_metrics 3700 3700 3700 (env_with confirming_node) (Some "0xabc")
       after_one_hour).1.1 !! "0xabc" = Some s'
    /\ start_time s' = 0%Q
    /\ (get_metrics 3710 3710 3710 env_offline (Some "0xabc")
          (get_metrics 3700 3700 3700 (env_with confirming_node) (Some "0xabc")
             after_one_hour).1.1).2 = Ok resp'
    /\ (totalProfit resp' == accrue 100000 3710)%Q.
Proof.
  destruct (accrual_restarts_from_start_time 3700 3700 3700
              (env_with confirming_node) (Some "0xabc") after_one_hour
              3710 env_offline)
    as (s' & resp' & E & Hst & _ & Hr & Htp).
  - vm_compute. reflexivity.
  - exists s', resp'. split; [exact E|]. split.
    + rewrite Hst. vm_compute. reflexivity.
    + split; [exact Hr|]. rewrite Htp. vm_compute. reflexivity.
Defined.

(** X10. After a confirmed settlement at [now], a query for the same
    account less than five seconds later, whatever the node and the key,
    emits nothing: no request is made and no verdict is printed. *)
Theorem no_attempt_within_cooldown t_start t_last now env h σ now' env' :
  attempt_confirmed (get_metrics t_start t_last now env h σ).1.2 = true ->
  (now' - now < 5)%Q ->
  (get_metrics now' now' now' env' h
     (get_metrics t_start t_last now env h σ).1.1).1.2 = [].
Proof.
  intros Hc Hlt.
  destruct (confirmed_entry _ _ _ _ _ _ Hc) as [Hh E]. cbv zeta in E.
  rewrite (get_metrics_run _ _ _ _ _ _ Hh). cbn [fst snd].
  unfold session_of at 1. rewrite E. cbn [default from_option id].
  destruct (due now' env' _) eqn:Hd; [|reflexivity].
  apply due_time in Hd.
  cbn [last_mint_time set_total_earned set_last_mint_time] in Hd.
  exfalso. by apply (Qlt_not_le _ _ Hlt).
Qed.

(** A settlement at 3700 and a query 4.9 s later on the same node. *)
Lemma no_attempt_within_cooldown_witness :
  (get_metrics (37049 # 10) (37049 # 10) (37049 # 10) (env_with confirming_node)
     (Some "0xabc")
     (get_metrics 3700 3700 3700 (env_with confirming_node) (Some "0xabc")
        after_one_hour).1.1).1.2 = [].
Proof.
  apply (no_attempt_within_cooldown 3700 3700 3700 (env_with confirming_node)
           (Some "0xabc") after_one_hour (37049 # 10) (env_with confirming_node)).
  - vm_compute. reflexivity.
  - reflexivity.
Defined.

(** ** More on one call of [mint_tokens_to_wallet] *)

(** As [mint_cases], keeping the equation of every test as well. *)
Ltac mint_cases_eq tac :=
  unfold mint_events, mint_value, mint_tokens_to_wallet;
  match goal with
  | |- context [w3 ?e] =>
      destruct (w3 e) as [?w|] eqn:?, (admin_account e) as [?admin|] eqn:?
  end; try tac;
  unfold_m;
  match goal with
  | |- context [int_of_float ?x <=? 0] => destruct (int_of_float x <=? 0) eqn:?
  end; try tac;
  repeat match goal with
  | |- context [match ?r with Ok _ => _ | Raise _ => _ end] =>
      lazymatch r with
      | context [match _ with _ => _ end] => fail
      | _ => destruct r eqn:?; cbn [fst snd app]; try tac
      end
  | |- context [if ?b then _ else _] => destruct b eqn:?; cbn [fst snd app]; try tac
  end.

Lemma mint_events_configured env wallet amount :
  is_Some (w3 env) -> is_Some (admin_account env) ->
  Printed NotConfigured ∉ mint_events env wallet amount.
Proof.
  mint_cases ltac:(by (intros Hw Ha H;
                       first [by destruct Hw | by destruct Ha | elem_cases H])).
Qed.

Lemma mint_events_no_mint_error env wallet amount w e :
  Printed (MintError w e) ∉ mint_events env wallet amount.
Proof. mint_cases ltac:(by (intros H; elem_cases H)). Qed.

(** X11. [mint_tokens_to_wallet] never raises and never changes
    [user_sessions], whatever the node and the key answer: every failure of
    a collaborator becomes the result [None]. So within a metrics query the
    handler of a mint exception is never entered, and the message for a
    missing configuration is never printed, the guard having checked both
    globals. *)
Theorem mint_never_raises :
  (forall env wallet amount σ,
     exists log v, mint_tokens_to_wallet env wallet amount σ = (σ, log, Ok v))
  /\ (forall t_start t_last now env h σ,
        (Printed NotConfigured ∉ (get_metrics t_start t_last now env h σ).1.2)
        /\ forall w e,
             Printed (MintError w e) ∉ (get_metrics t_start t_last now env h σ).1.2).
Proof.
  split.
  - intros. eexists _, _. apply mint_tokens_to_wallet_run.
  - intros t_start t_last now env h σ.
    destruct (opt_str_truthy h) eqn:Hh.
    + rewrite (get_metrics_run _ _ _ _ _ _ Hh). cbn [fst snd].
      destruct (due now env _) eqn:Hd.
      * destruct (due_available _ _ _ Hd) as [Hw Ha]. split.
        -- rewrite elem_of_app. intros [H|H].
           ++ by apply (mint_events_configured env _ _ Hw Ha) in H.
           ++ apply list_elem_of_singleton in H.
              match type of H with
              | context [if ?b then _ else _] => destruct b
              end; discriminate H.
        -- intros w e. rewrite elem_of_app. intros [H|H].
           ++ by apply mint_events_no_mint_error in H.
           ++ apply list_elem_of_singleton in H.
              match type of H with
              | context [if ?b then _ else _] => destruct b
              end; discriminate H.
      * split; [|intros w e]; apply not_elem_of_nil.
    + rewrite (get_metrics_no_header _ _ _ _ _ _ Hh). cbn [fst snd].
      split; [|intros w e]; apply not_elem_of_nil.
Qed.

(** X12. [mint_tokens_to_wallet] returns a hash only when a transaction was
    submitted in this call, the hash is the node's answer to that
    submission, and the receipt waited for under that hash (with the 120 s
    timeout) has status 1. *)
Theorem mint_hash_means_confirmed env wallet amount tx_hash :
  mint_value env wallet amount = Some tx_hash ->
  exists w raw receipt,
    w3 env = Some w
    /\ Request (SendRawTransaction raw) ∈ mint_events env wallet amount
    /\ send_raw_transaction w raw = Ok tx_hash
    /\ Request (WaitForTransactionReceipt tx_hash 120) ∈ mint_events env wallet amount
    /\ wait_for_transaction_receipt w tx_hash 120 = Ok receipt
    /\ status receipt = 1
    /\ Printed (ConfirmedInBlock (blockNumber receipt)) ∈ mint_events env wallet amount.
Proof.
  unfold mint_events.
  mint_cases_eq ltac:(discriminate).
  intros [= <-]. eexists _, _, _.
  split_and!; try reflexivity; try eassumption;
    try (repeat first [apply list_elem_of_here | apply list_elem_of_further]).
  by apply Z.eqb_eq.
Qed.

(** Half a token on a node that confirms. *)
Lemma mint_hash_means_confirmed_witness :
  exists w raw receipt,
    w3 (env_with confirming_node) = Some w
    /\ Request (SendRawTransaction raw)
       ∈ mint_events (env_with confirming_node) "0xabc" (1 # 2)
    /\ send_raw_transaction w raw = Ok "0xfeed"
    /\ Request (WaitForTransactionReceipt "0xfeed" 120)
       ∈ mint_events (env_with confirming_node) "0xabc" (1 # 2)
    /\ wait_for_transaction_receipt w "0xfeed" 120 = Ok receipt
    /\ status receipt = 1
    /\ Printed (ConfirmedInBlock (blockNumber receipt))
       ∈ mint_events (env_with confirming_node) "0xabc" (1 # 2).
Proof.
  apply (mint_hash_means_confirmed (env_with confirming_node) "0xabc" (1 # 2)).
  reflexivity.
Defined.

(** X13. The requests of one mint follow the fixed order gas price, nonce,
    chain id, build, sign, submit, wait, each at most once and none after a
    failure: they are an initial part of that sequence. In particular a
    call, and so a metrics query, submits at most one transaction. *)
Theorem mint_requests_in_order :
  (forall env wallet amount,
     map call_rank (requests (mint_events env wallet amount))
       `prefix_of` [0; 1; 2; 3; 4; 5; 6]%nat)
  /\ (forall t_start t_last now env h σ,
        map call_rank (requests (get_metrics t_start t_last now env h σ).1.2)
          `prefix_of` [0; 1; 2; 3; 4; 5; 6]%nat
        /\ (length (List.filter is_submission
                      (requests (get_metrics t_start t_last now env h σ).1.2))
            <= 1)%nat).
Proof.
  assert (Hm : forall env wallet amount,
            map call_rank (requests (mint_events env wallet amount))
              `prefix_of` [0; 1; 2; 3; 4; 5; 6]%nat
            /\ (length (List.filter is_submission
                          (requests (mint_events env wallet amount))) <= 1)%nat).
  { intros env wallet amount.
    mint_cases ltac:(by (split; [vm_compute; by eexists | vm_compute; lia])). }
  split; [intros; apply Hm|].
  intros t_start t_last now env h σ.
  destruct (opt_str_truthy h) eqn:Hh.
  - rewrite (get_metrics_run _ _ _ _ _ _ Hh). cbn [fst snd].
    destruct (due now env _).
    + rewrite requests_app. cbn [requests omap]. rewrite app_nil_r. apply Hm.
    + split; [by eexists | cbn; lia].
  - rewrite (get_metrics_no_header _ _ _ _ _ _ Hh). cbn [fst snd].
    split; [by eexists | cbn; lia].
Qed.




Lemma gas_buffer gas :
  0 <= gas ->
  gas <= int_of_float (inject_Z gas * (12 # 10))
  /\ 10 * int_of_float (inject_Z gas * (12 # 10)) <= 12 * gas.
Proof.
  intros Hg. unfold int_of_float. cbn [Qnum Qden Qmult inject_Z].
  rewrite Z.quot_div_nonneg by lia.
  change (Z.pos (1 * 10)) with 10.
  pose proof (Z.mul_div_le (gas * 12) 10 ltac:(lia)) as H1.
  split; [apply Z.div_le_lower_bound; lia|lia].
Qed.

(** X15. A built transaction carries what the node and the key answered in
    this call: the sender is the administrator's address, the nonce is the
    node's transaction count for that address, the chain id is the node's,
    the contract and the recipient are the checked forms of the token
    address and of the wallet, the gas limit is 200000, and the gas price
    is the integer part of 1.2 times the node's price, so between the
    node's price and 1.2 times it. *)
Theorem built_transaction_fields env wallet amount tx :
  Request (BuildTransaction tx) ∈ mint_events env wallet amount ->
  exists w admin gas,
    w3 env = Some w /\ admin_account env = Some admin
    /\ gas_price w = Ok gas
    /\ tx_gasPrice tx = int_of_float (inject_Z gas * (12 # 10))
    /\ (0 <= gas -> gas <= tx_gasPrice tx /\ 10 * tx_gasPrice tx <= 12 * gas)
    /\ tx_gas tx = 200000
    /\ tx_from tx = address admin
    /\ get_transaction_count w (address admin) = Ok (tx_nonce tx)
    /\ chain_id w = Ok (tx_chainId tx)
    /\ to_checksum_address w (TOKEN_ADDRESS env) = Ok (tx_to tx)
    /\ to_checksum_address w wallet = Ok (tx_recipient tx).
Proof.
  unfold mint_events.
  mint_cases_eq ltac:(by (intros H; elem_cases H));
    intros H; elem_cases H;
    eexists _, _, _; cbn [tx_gasPrice tx_gas tx_from tx_nonce tx_chainId tx_to
                          tx_recipient];
    (split_and!; try reflexivity; try eassumption; apply gas_buffer).
Qed.

(** A node quoting 30 gwei: the transaction offers 36 gwei. *)
Lemma built_transaction_fields_witness :
  exists w admin gas tx,
    w3 (env_with confirming_node) = Some w
    /\ admin_account (env_with confirming_node) = Some admin
    /\ gas_price w = Ok gas
    /\ tx_gasPrice tx = int_of_float (inject_Z gas * (12 # 10))
    /\ tx_gasPrice tx = 36000000000
    /\ tx_from tx = address admin.
Proof.
  destruct (built_transaction_fields (env_with confirming_node) "0xabc" (1 # 2)
              {| tx_to := "0x8502496d6739dd6e18ced318c4b5fc12a5fb2c2c";
                 tx_recipient := "0xabc"; tx_amount := 500000000000000000;
                 tx_from := "0xAd"; tx_nonce := 7; tx_gas := 200000;
                 tx_gasPrice := 36000000000; tx_chainId := 1 |})
    as (w & admin & gas & Hw & Ha & Hg & Hp & _ & _ & Hf & _).
  - vm_compute. do 4 apply list_elem_of_further. apply list_elem_of_here.
  - eexists w, admin, gas, _. split_and!; try eassumption. reflexivity.
Defined.

(** ** Stop, and start followed by stop *)

(** X16. Stopping is idempotent and local. With a string (or no value, read
    as the empty string) under ["walletAddress"], the call succeeds whether
    or not the account is tracked, the account is absent afterwards, every
    other account keeps its entry, the stop is announced exactly when an
    entry was removed, and stopping again changes nothing and prints
    nothing. *)
Theorem stop_engine_idempotent data address σ :
  default (JStr "") (data !! "walletAddress") = JStr address ->
  let wallet := lower address in
  let σ1 := (stop_engine data σ).1.1 in
  (stop_engine data σ).2
  = Ok {| stop_success := true; stop_message := "Engine stopped" |}
  /\ σ1 !! wallet = None
  /\ (forall other, other <> wallet -> σ1 !! other = σ !! other)
  /\ (Printed (EngineStopped wallet) ∈ (stop_engine data σ).1.2
      <-> is_Some (σ !! wallet))
  /\ stop_engine data σ1
     = (σ1, [], Ok {| stop_success := true; stop_message := "Engine stopped" |}).
Proof.
  intros Hd wallet σ1. unfold σ1.
  rewrite !(stop_engine_run _ _ _ Hd). cbn [fst snd]. fold wallet.
  split_and!.
  - reflexivity.
  - apply lookup_delete_eq.
  - intros other Hne. by apply lookup_delete_ne.
  - destruct (decide (is_Some (σ !! wallet))) as [Hs|Hn].
    + split; [done|]. intros _. apply list_elem_of_here.
    + split; [|done]. intros H. by apply elem_of_nil in H.
  - rewrite lookup_delete_eq.
    rewrite decide_False by (intros [x Hx]; discriminate).
    by rewrite delete_delete_eq.
Qed.

(** A body without the key: the account named by the empty string. *)
Lemma stop_engine_idempotent_witness :
  (stop_engine ∅ (one_session 3)).2
  = Ok {| stop_success := true; stop_message := "Engine stopped" |}
  /\ (stop_engine ∅ (one_session 3)).1.1 !! "0xabc" = Some
       {| start_time := 0; total_earned := 3; last_mint_time := 0;
          strategies := [] |}
  /\ (stop_engine {[ "walletAddress" := JStr "0xABC" ]} (one_session 3)).1.1
     !! "0xabc" = None.
Proof.
  destruct (stop_engine_idempotent ∅ "" (one_session 3)) as (H1 & _ & H3 & _).
  - reflexivity.
  - destruct (stop_engine_idempotent {[ "walletAddress" := JStr "0xABC" ]}
                "0xABC" (one_session 3)) as (_ & H2 & _).
    + reflexivity.
    + split; [exact H1|]. split; [|exact H2].
      rewrite (H3 "0xabc") by discriminate. reflexivity.
Defined.

(** X17. A start followed by a stop of the same address (in any letter
    case) leaves the dictionary without that account, whatever the start
    stored; for an account that was not tracked before, the two calls
    together leave the dictionary as it was. *)
Theorem start_then_stop t1 t2 req address σ :
  lower address = lower (walletAddress req) ->
  let wallet := lower (walletAddress req) in
  let σ2 := (stop_engine {[ "walletAddress" := JStr address ]}
               (start_engine t1 t2 req σ).1.1).1.1 in
  σ2 = delete wallet σ
  /\ (σ !! wallet = None -> σ2 = σ).
Proof.
  intros Hw wallet σ2. unfold σ2.
  rewrite (stop_engine_run _ address) by (by rewrite lookup_singleton_eq).
  rewrite start_engine_run. cbn [fst]. rewrite Hw. fold wallet.
  rewrite delete_insert_eq. split; [reflexivity|].
  intros Hn. by apply delete_id.
Qed.

(** A new account started and stopped beside a tracked one. *)
Lemma start_then_stop_witness :
  (stop_engine {[ "walletAddress" := JStr "0xdef" ]}
     (start_engine 5 5
        {| walletAddress := "0xDEF"; miningContract := "m";
           yieldAggregator := "y"; req_strategies := [] |}
        (one_session 3)).1.1).1.1
  = one_session 3.
Proof.
  refine (proj2 (start_then_stop 5 5
                   {| walletAddress := "0xDEF"; miningContract := "m";
                      yieldAggregator := "y"; req_strategies := [] |}
                   "0xdef" (one_session 3) _) _).
  - reflexivity.
  - vm_compute. reflexivity.
Defined.

(** ** Start-up *)

(** X18. The globals the module sets at import: a key is held only with a
    node, and only when both environment variables are non-empty and the
    node answered as connected at that moment; the node is set exactly when
    the Alchemy key is non-empty; the token address is the environment's or
    the default. So settlement can be attempted at all exactly when [root]
    reports an administrator wallet, and the guard of a metrics query then
    reduces to the five seconds and the key. *)
Theorem startup_globals environ node connected from_key env :
  startup environ node connected from_key = Ok env ->
  (is_Some (w3 env) <-> getenv environ "ALCHEMY_API_KEY" "" <> "")
  /\ (is_Some (admin_account env) ->
        w3 env = Some node
        /\ getenv environ "ADMIN_PRIVATE_KEY" "" <> ""
        /\ connected = true
        /\ from_key (getenv environ "ADMIN_PRIVATE_KEY" "")
           = Ok (default admin_key (admin_account env)))
  /\ TOKEN_ADDRESS env
     = getenv environ "REWARD_TOKEN_ADDRESS"
         "0x8502496d6739dd6e18ced318c4b5fc12a5fb2c2c"
  /\ (forall now s,
        due now env s
        = Qle_bool 5 (now - last_mint_time s)
          && bool_decide (is_Some (admin_account env)))
  /\ (forall c, is_Some (admin_wallet (root c env))
                <-> is_Some (w3 env) /\ is_Some (admin_account env))
  /\ (forall c, web3_ready (root c env) = true -> is_Some (w3 env) /\ c = true).
Proof.
  intros H.
  assert (Hshape :
    TOKEN_ADDRESS env
    = getenv environ "REWARD_TOKEN_ADDRESS"
        "0x8502496d6739dd6e18ced318c4b5fc12a5fb2c2c"
    /\ ((w3 env = None /\ admin_account env = None
         /\ getenv environ "ALCHEMY_API_KEY" "" = "")
        \/ (w3 env = Some node /\ admin_account env = None
            /\ getenv environ "ALCHEMY_API_KEY" "" <> "")
        \/ (w3 env = Some node
            /\ getenv environ "ALCHEMY_API_KEY" "" <> ""
            /\ getenv environ "ADMIN_PRIVATE_KEY" "" <> ""
            /\ connected = true
            /\ exists account,
                 admin_account env = Some account
                 /\ from_key (getenv environ "ADMIN_PRIVATE_KEY" "") = Ok account))).
  { unfold startup in H.
    destruct (getenv environ "ALCHEMY_API_KEY" "") as [|c0 r0];
      cbn [str_truthy] in H.
    - injection H as <-. split; [reflexivity|]. by left.
    - destruct (getenv environ "ADMIN_PRIVATE_KEY" "") as [|c1 r1];
        cbn [str_truthy andb] in H.
      + injection H as <-. split; [reflexivity|]. right. left. done.
      + destruct connected.
        * destruct (from_key (String c1 r1)) as [account|e] eqn:Ek; [|discriminate].
          injection H as <-. split; [reflexivity|]. right. right.
          split_and!; try done. by exists account.
        * injection H as <-. split; [reflexivity|]. right. left. done. }
  destruct Hshape as [Htok Hshape].
  assert (Hk : is_Some (admin_account env) -> is_Some (w3 env)).
  { intros [x Hx].
    destruct Hshape as [(_ & Ha & _)|[(_ & Ha & _)|(Hw & _)]];
      [congruence|congruence|by eexists]. }
  split_and!.
  - destruct Hshape as [(Hw & _ & Ha)|[(Hw & _ & Ha)|(Hw & Ha & _)]]; rewrite Hw.
    + split; [by intros [x Hx]|done].
    + split; [done|by eexists].
    + split; [done|by eexists].
  - intros [x Hx].
    destruct Hshape as [(_ & Ha & _)|[(_ & Ha & _)|(Hw & _ & Hp & Hc & acc & Ha & Hf)]];
      [congruence|congruence|].
    rewrite Ha. cbn [default from_option id]. done.
  - exact Htok.
  - intros now s. unfold due.
    destruct (admin_account env) as [acc|] eqn:Ea.
    + rewrite (bool_decide_eq_true_2 (is_Some (w3 env))) by (apply Hk; by eexists).
      by rewrite andb_true_r.
    + rewrite (bool_decide_eq_false_2 (is_Some None)) by (by intros [x Hx]).
      by rewrite !andb_false_r.
  - intros c. cbn [root admin_wallet].
    destruct (admin_account env) as [acc|] eqn:Ea.
    + split; [intros _; split; [apply Hk|]; by eexists|by eexists].
    + split; [by intros [x Hx]|by intros [_ [x Hx]]].
  - intros c. cbn [root web3_ready].
    destruct (w3 env) as [w|].
    + rewrite (bool_decide_eq_true_2 (is_Some (Some w))) by (by eexists).
      cbn [andb]. intros ->. split; [by eexists|done].
    + rewrite (bool_decide_eq_false_2 (is_Some None)) by (by intros [x Hx]).
      discriminate.
Qed.

(** Both variables set and the node connected; and the private key left
    out. *)
Lemma startup_globals_witness :
  (startup {[ "ALCHEMY_API_KEY" := "k"; "ADMIN_PRIVATE_KEY" := "p" ]}
     confirming_node true (fun _ => Ok admin_key)
   = Ok (env_with confirming_node)
   /\ is_Some (admin_wallet (root true (env_with confirming_node))))
  /\ (startup {[ "ALCHEMY_API_KEY" := "k" ]}
        confirming_node true (fun _ => Ok admin_key)
      = Ok {| w3 := Some confirming_node; admin_account := None;
              TOKEN_ADDRESS := "0x8502496d6739dd6e18ced318c4b5fc12a5fb2c2c" |}
      /\ forall now s,
           due now {| w3 := Some confirming_node; admin_account := None;
                      TOKEN_ADDRESS := "0x8502496d6739dd6e18ced318c4b5fc12a5fb2c2c" |}
             s = false).
Proof.
  assert (E1 : startup {[ "ALCHEMY_API_KEY" := "k"; "ADMIN_PRIVATE_KEY" := "p" ]}
                 confirming_node true (fun _ => Ok admin_key)
               = Ok (env_with confirming_node)) by reflexivity.
  assert (E2 : startup {[ "ALCHEMY_API_KEY" := "k" ]}
                 confirming_node true (fun _ => Ok admin_key)
               = Ok {| w3 := Some confirming_node; admin_account := None;
                       TOKEN_ADDRESS :=
                         "0x8502496d6739dd6e18ced318c4b5fc12a5fb2c2c" |})
    by reflexivity.
  split.
  - split; [exact E1|].
    destruct (startup_globals _ _ _ _ _ E1) as (_ & _ & _ & _ & Hr & _).
    apply Hr. split; by eexists.
  - split; [exact E2|].
    destruct (startup_globals _ _ _ _ _ E2) as (_ & _ & _ & Hd & _).
    intros now s. rewrite Hd. cbn. apply andb_false_r.
Defined.

(** ** Without a node or a key, and after a failure *)

Lemma due_unavailable now env s :
  w3 env = None \/ admin_account env = None -> due now env s = false.
Proof.
  unfold due. intros [H|H]; rewrite H;
    rewrite (bool_decide_eq_false_2 (is_Some None)) by (by intros [x Hx]);
    by rewrite ?andb_false_r.
Qed.

Lemma poll_unavailable_log h qs : forall σ,
  Forall (fun q : Q * Env => w3 q.2 = None \/ admin_account q.2 = None) qs ->
  (poll h qs σ).2 = [].
Proof.
  induction qs as [|[now env] rest IH]; intros σ Hq; [reflexivity|].
  apply Forall_cons in Hq as [Hq1 Hq2]. cbn [snd] in Hq1.
  rewrite poll_cons. cbn [snd]. rewrite (IH _ Hq2), app_nil_r.
  destruct (opt_str_truthy h) eqn:Hh.
  - rewrite (get_metrics_run _ _ _ _ _ _ Hh). cbn [fst snd].
    by rewrite (due_unavailable _ _ _ Hq1).
  - by rewrite (get_metrics_no_header _ _ _ _ _ _ Hh).
Qed.

(** X19. While the node or the key is not configured, metrics queries emit
    nothing at all, so nothing is ever minted or reset: after any number of
    queries [last_mint_time] is unchanged and the total has grown by the
    accrual over the sum of the times elapsed since [start_time]. *)
Theorem unconfigured_never_settles h qs σ s :
  Forall (fun q : Q * Env => w3 q.2 = None \/ admin_account q.2 = None) qs ->
  h <> "" -> σ !! lower h = Some s ->
  (poll (Some h) qs σ).2 = []
  /\ exists s',
       (poll (Some h) qs σ).1 !! lower h = Some s'
       /\ last_mint_time s' = last_mint_time s
       /\ start_time s' = start_time s
       /\ (total_earned s'
           == total_earned s
              + 100000 * effectiveRate / (365 * 86400)
                * total_elapsed (start_time s) qs)%Q.
Proof.
  intros Hq Hne E.
  pose proof (poll_unavailable_log (Some h) qs σ Hq) as Hlog.
  split; [exact Hlog|].
  assert (Hh : opt_str_truthy (Some h) = true) by (by destruct h).
  assert (Hc : attempt_confirmed (poll (Some h) qs σ).2 = false)
    by (by rewrite Hlog).
  destruct (poll_accumulates (Some h) qs σ s Hh E Hc)
    as (s' & El & Hst & Hlm & Hte).
  exists s'. split_and!; [exact El|exact Hlm|exact Hst|].
  rewrite Hte. unfold accrue. field.
Qed.

(** Two queries, one with nothing configured and one with a node but no
    key. *)
Lemma unconfigured_never_settles_witness :
  let no_key := {| w3 := Some confirming_node; admin_account := None;
                   TOKEN_ADDRESS := "0x8502496d6739dd6e18ced318c4b5fc12a5fb2c2c" |} in
  (poll (Some "0xABC") [(60%Q, env_offline); (120%Q, no_key)] (one_session 3)).2 = []
  /\ exists s',
       (poll (Some "0xABC") [(60%Q, env_offline); (120%Q, no_key)]
          (one_session 3)).1 !! "0xabc" = Some s'
       /\ last_mint_time s' = 0%Q
       /\ (total_earned s' == 3 + 100000 * effectiveRate / (365 * 86400) * 180)%Q.
Proof.
  cbv zeta.
  destruct (unconfigured_never_settles "0xABC"
              [(60%Q, env_offline);
               (120%Q, {| w3 := Some confirming_node; admin_account := None;
                          TOKEN_ADDRESS :=
                            "0x8502496d6739dd6e18ced318c4b5fc12a5fb2c2c" |})]
              (one_session 3)
              {| start_time := 0; total_earned := 3; last_mint_time := 0;
                 strategies := [] |})
    as (Hlog & s' & El & Hlm & _ & Hte).
  - constructor; [by left|]. constructor; [by right|]. constructor.
  - discriminate.
  - vm_compute. reflexivity.
  - split; [exact Hlog|]. exists s'. split_and!; [exact El|exact Hlm|].
    rewrite Hte. cbn [total_earned start_time total_elapsed fst]. ring.
Defined.

(** X20. A failed attempt does not hold back the next one: after a query
    whose attempt did not confirm, every later query for the account that
    finds the node and the key set tries the mint again, however soon it
    comes. *)
Theorem failed_attempt_is_retried t_start t_last now env h σ now' env' :
  attempt_failed (get_metrics t_start t_last now env h σ).1.2 = true ->
  (now <= now')%Q ->
  is_Some (w3 env') -> is_Some (admin_account env') ->
  let log' := (get_metrics now' now' now' env' h
                 (get_metrics t_start t_last now env h σ).1.1).1.2 in
  attempt_confirmed log' || attempt_failed log' = true.
Proof.
  intros Hf Hle Hw Ha log'. unfold log'.
  destruct (opt_str_truthy h) eqn:Hh;
    [|by rewrite (no_header_no_verdict _ _ _ _ _ _ Hh) in Hf].
  destruct (get_metrics_verdict t_start t_last now env h σ Hh) as [_ Hv].
  cbv zeta in Hv. rewrite Hf in Hv. symmetry in Hv.
  apply andb_prop in Hv as [Hd Hok]. apply negb_true_iff in Hok.
  destruct (get_metrics_verdict now' now' now' env' h
              (get_metrics t_start t_last now env h σ).1.1 Hh) as [-> ->].
  rewrite <- andb_orb_distrib_r, orb_negb_r, andb_true_r.
  rewrite (get_metrics_run _ _ _ _ _ _ Hh). cbn [fst].
  rewrite Hok, andb_false_r. unfold session_of at 1. rewrite lookup_insert_eq.
  cbn [default from_option id].
  apply due_time in Hd. unfold due.
  rewrite !bool_decide_eq_true_2 by done. rewrite !andb_true_r.
  apply Qle_bool_iff. cbn [last_mint_time set_total_earned].
  set (lm := last_mint_time _) in *. lra.
Qed.

(** A revert at 10 and another query one second later. *)
Lemma failed_attempt_is_retried_witness :
  let log' := (get_metrics 11 11 11 (env_with reverting_node) (Some "0xabc")
                 (get_metrics 10 10 10 (env_with reverting_node) (Some "0xabc")
                    (one_session 3)).1.1).1.2 in
  attempt_confirmed log' || attempt_failed log' = true.
Proof.
  apply (failed_attempt_is_retried 10 10 10 (env_with reverting_node)
           (Some "0xabc") (one_session 3) 11 (env_with reverting_node)).
  - vm_compute. reflexivity.
  - discriminate.
  - by eexists.
  - by eexists.
Defined.

(** ** The earnings formula *)

(** X21. [calculate_earnings] is linear: zero for zero seconds or zero
    principal, additive in the seconds and in the principal, and for a
    positive principal strictly increasing in the seconds, so negative for
    negative seconds. The rate it returns does not depend on its
    arguments. *)
Theorem calculate_earnings_linear P P' t t' :
  ((calculate_earnings P 0).1 == 0)%Q
  /\ ((calculate_earnings 0 t).1 == 0)%Q
  /\ ((calculate_earnings P (t + t')).1
      == (calculate_earnings P t).1 + (calculate_earnings P t').1)%Q
  /\ ((calculate_earnings (P + P') t).1
      == (calculate_earnings P t).1 + (calculate_earnings P' t).1)%Q
  /\ ((0 < P)%Q -> (t < t')%Q ->
      ((calculate_earnings P t).1 < (calculate_earnings P t').1)%Q)
  /\ ((0 < P)%Q -> (t < 0)%Q -> ((calculate_earnings P t).1 < 0)%Q)
  /\ ((calculate_earnings P t).2 == (calculate_earnings P' t').2)%Q.
Proof.
  rewrite !calculate_earnings_value, !total_apy_value.
  split_and!; try ring.
  - intros HP Ht.
    assert (H : (0 < P * ((48195 # 10000) / (31536000 # 1)) * (t' - t))%Q).
    { apply Qmult_lt_0_compat; [apply Qmult_lt_0_compat; [done|reflexivity]|].
      unfold Qminus. by rewrite <- Qlt_minus_iff. }
    set (c := ((48195 # 10000) / (31536000 # 1))%Q) in *.
    assert (E : (P * c * (t' - t) == P * c * t' - P * c * t)%Q) by ring.
    rewrite E in H. set (x := (P * c * t)%Q) in *. set (y := (P * c * t')%Q) in *.
    lra.
  - intros HP Ht.
    assert (H : (0 < P * ((48195 # 10000) / (31536000 # 1)) * (0 - t))%Q).
    { apply Qmult_lt_0_compat; [apply Qmult_lt_0_compat; [done|reflexivity]|].
      lra. }
    set (c := ((48195 # 10000) / (31536000 # 1))%Q) in *.
    assert (E : (P * c * (0 - t) == - (P * c * t))%Q) by ring.
    rewrite E in H. set (x := (P * c * t)%Q) in *. lra.
Qed.

(** ** What a query mints *)

Lemma mint_events_recipient env wallet amount tx :
  Request (BuildTransaction tx) ∈ mint_events env wallet amount ->
  exists w, w3 env = Some w /\ to_checksum_address w wallet = Ok (tx_recipient tx).
Proof.
  unfold mint_events.
  mint_cases_eq ltac:(by (intros H; elem_cases H));
    intros H; elem_cases H; eexists; (split; [reflexivity|eassumption]).
Qed.

(** X22. What a metrics query mints is what it reports: a transaction
    built during the query carries the integer part of the reported
    [totalProfit] times [10^18], for the checked form of the lower-cased
    wallet of the header, and it is built only under the guard. *)
Theorem query_mints_reported_total t_start t_last now env h σ tx :
  Request (BuildTransaction tx) ∈ (get_metrics t_start t_last now env h σ).1.2 ->
  exists resp w,
    (get_metrics t_start t_last now env h σ).2 = Ok resp
    /\ tx_amount tx = int_of_float (totalProfit resp * inject_Z (10 ^ 18))
    /\ w3 env = Some w
    /\ to_checksum_address w (lower (default "" h)) = Ok (tx_recipient tx)
    /\ due now env (session_of t_start t_last σ (lower (default "" h))) = true.
Proof.
  intros Hin.
  destruct (opt_str_truthy h) eqn:Hh.
  - rewrite (get_metrics_run _ _ _ _ _ _ Hh) in Hin |- *. cbn [fst snd] in Hin |- *.
    destruct (due now env _) eqn:Hd; [|by apply elem_of_nil in Hin].
    apply elem_of_app in Hin as [Hin|Hin].
    + destruct (mint_events_recipient _ _ _ _ Hin) as (w & Hw & Hr).
      destruct (mint_events_build _ _ _ _ Hin) as [Ha _].
      exists (snapshot now (session_of t_start t_last σ (lower (default "" h)))), w.
      split_and!; try done.
    + apply list_elem_of_singleton in Hin.
      match type of Hin with
      | context [if ?b then _ else _] => destruct b
      end; discriminate Hin.
  - rewrite (get_metrics_no_header _ _ _ _ _ _ Hh) in Hin. cbn [fst snd] in Hin.
    by apply elem_of_nil in Hin.
Qed.

(** The settlement an hour and 100 s after the start. *)
Lemma query_mints_reported_total_witness :
  exists resp tx,
    (get_metrics 3700 3700 3700 (env_with confirming_node) (Some "0xABC")
       after_one_hour).2 = Ok resp
    /\ tx_amount tx = int_of_float (totalProfit resp * inject_Z (10 ^ 18))
    /\ tx_recipient tx = "0xabc"
    /\ tx_amount tx = 111562500000000000000.
Proof.
  destruct (query_mints_reported_total 3700 3700 3700 (env_with confirming_node)
              (Some "0xABC") after_one_hour
              {| tx_to := "0x8502496d6739dd6e18ced318c4b5fc12a5fb2c2c";
                 tx_recipient := "0xabc"; tx_amount := 111562500000000000000;
                 tx_from := "0xAd"; tx_nonce := 7; tx_gas := 200000;
                 tx_gasPrice := 36000000000; tx_chainId := 1 |})
    as (resp & w & Hr & Ha & _).
  - vm_compute. do 4 apply list_elem_of_further. apply list_elem_of_here.
  - eexists resp, _. split; [exact Hr|]. split; [exact Ha|]. split; reflexivity.
Defined.
